(** * Sprite-to-3D conversion scripts: a shallow embedding

    The repository holds five Python scripts that run inside Blender:

    - [scripts/blender-sprite-to-3d.py]      ([SpriteTo3D])
    - [scripts/blender-character-to-3d.py]   ([CharacterTo3D])
    - [scripts/blender-quick-convert.py]     ([QuickConvert])
    - [scripts/blender-addon-sprite-converter.py] ([Addon])
    - [scripts/blender-fbx-to-glb.py]        ([FbxToGlb])

    Each script is a straight-line sequence of calls into the host (the
    [bpy] scene API, [os], [sys]).  The embedding threads one explicit
    [World] (file system, [bpy.data] stores, scene objects, standard
    output) through a state-and-exception monad [M]; Python references to
    data-blocks are handles (indices) into the stores, so that a mutation
    through a reference is an update of the store.

    Numbers: Python [int] is [Z]; Python [float] is idealised as an exact
    rational [Q], and equalities between floats are stated with [==]. *)

From Stdlib Require Import QArith ZArith String Ascii List Lia Lqa.
From stdpp Require Import gmap strings list fin_maps pretty.

Open Scope string_scope.
Open Scope list_scope.

(** ** Data model *)

Definition vec3 : Type := Q * Q * Q.

Definition veq (a b : vec3) : Prop :=
  let '(ax, ay, az) := a in
  let '(bx, by_, bz) := b in
  (ax == bx)%Q /\ (ay == by_)%Q /\ (az == bz)%Q.

(** Python exceptions the scripts can meet. [SystemExit] is what
    [sys.exit(code)] raises; it is not an [Exception]. *)
Inductive exn :=
| RuntimeError
| TypeError
| ValueError
| ZeroDivisionError
| KeyError
| AttributeError
| ReferenceError
| FileNotFoundError
| FileExistsError
| SystemExit (code : Z).

Definition is_Exception (e : exn) : bool :=
  match e with SystemExit _ => false | _ => true end.

(** A printed line is the list of the pieces of its f-string. *)
Inductive frag :=
| Str (s : string)
| Int (z : Z)
| Flt (q : Q)            (* {x}     *)
| Flt2 (q : Q)           (* {x:.2f} *)
| Exc (e : exn).         (* {e}     *)

Definition line : Type := list frag.

(** [bpy.data.images] entry. *)
Record Image := mkImage {
  i_filepath : string;
  i_size : Z * Z;
}.

(** [bpy.data.textures] entry. *)
Record Texture := mkTexture {
  t_name : string;
  t_type : string;
  t_image : option nat;
}.

(** A value assigned to a socket's [default_value]. *)
Inductive sockval :=
| VFloat (q : Q)
| VColor (r g b a : Q).

(** A shader node; [n_defaults] lists the [default_value] assignments made
    by the script (latest first), not the host's initial socket values. *)
Record Node := mkNode {
  n_name : string;
  n_type : string;
  n_image : option nat;
  n_defaults : list (string * sockval);
}.

(** [links.new(from_node.outputs[from], to_node.inputs[to])]. *)
Record Link := mkLink {
  l_from_node : nat;
  l_from : string;
  l_to_node : nat;
  l_to : string;
}.

(** [bpy.data.materials] entry. *)
Record Material := mkMaterial {
  m_name : string;
  m_use_nodes : bool;
  m_nodes : list Node;
  m_links : list Link;
  m_blend_method : string;
}.

Inductive prim := Cube | Plane | UVSphere.

(** A scene object created by a [primitive_*_add] operator. [o_add_scale]
    is the operator's [scale=] keyword ([None] when it is left out),
    [o_scale] the object's [scale] property; [o_materials] are handles into [bpy.data.materials];
    [o_unwrap] records a [bpy.ops.uv.unwrap] run on the object. *)
Record Object := mkObject {
  o_name : string;
  o_prim : prim;
  o_size : Q;
  o_location : vec3;
  o_add_scale : option vec3;
  o_scale : vec3;
  o_materials : list nat;
  o_unwrap : option (string * Q);
}.

(** What a path of the file system holds. [GlbFile] keeps the scene the
    exporter was given. *)
Inductive node :=
| Dir
| ImageFile (width height : Z)
| Unreadable
| GlbFile (objs : list Object) (mats : list Material).

(** The host collaborator, as far as the scripts can observe it:
    whether the glTF exporter accepts the [export_colors] keyword, whether
    a write to a path goes through, what the FBX importer makes of a
    path, and how many bytes a file takes. *)
Record Host := mkHost {
  gltf_accepts_colors : bool;
  gltf_can_write : string -> bool;
  fbx_import : string -> option (list Object);
  file_size : node -> Z;
}.

Record World := mkWorld {
  fs : gmap string node;
  host : Host;
  images : list Image;
  textures : list Texture;
  materials : list Material;
  objects : list Object;
  active : option nat;
  mode : string;
  stdout : list line;
  reports : list (string * line);
}.

Definition set_fs (f : gmap string node -> gmap string node) (w : World) : World :=
  mkWorld (f (fs w)) (host w) (images w) (textures w) (materials w)
          (objects w) (active w) (mode w) (stdout w) (reports w).
Definition set_images (f : list Image -> list Image) (w : World) : World :=
  mkWorld (fs w) (host w) (f (images w)) (textures w) (materials w)
          (objects w) (active w) (mode w) (stdout w) (reports w).
Definition set_textures (f : list Texture -> list Texture) (w : World) : World :=
  mkWorld (fs w) (host w) (images w) (f (textures w)) (materials w)
          (objects w) (active w) (mode w) (stdout w) (reports w).
Definition set_materials (f : list Material -> list Material) (w : World) : World :=
  mkWorld (fs w) (host w) (images w) (textures w) (f (materials w))
          (objects w) (active w) (mode w) (stdout w) (reports w).
Definition set_objects (f : list Object -> list Object) (w : World) : World :=
  mkWorld (fs w) (host w) (images w) (textures w) (materials w)
          (f (objects w)) (active w) (mode w) (stdout w) (reports w).
Definition set_active (a : option nat) (w : World) : World :=
  mkWorld (fs w) (host w) (images w) (textures w) (materials w)
          (objects w) a (mode w) (stdout w) (reports w).
Definition set_mode (m : string) (w : World) : World :=
  mkWorld (fs w) (host w) (images w) (textures w) (materials w)
          (objects w) (active w) m (stdout w) (reports w).
Definition set_stdout (f : list line -> list line) (w : World) : World :=
  mkWorld (fs w) (host w) (images w) (textures w) (materials w)
          (objects w) (active w) (mode w) (f (stdout w)) (reports w).
Definition set_reports (f : list (string * line) -> list (string * line))
    (w : World) : World :=
  mkWorld (fs w) (host w) (images w) (textures w) (materials w)
          (objects w) (active w) (mode w) (stdout w) (f (reports w)).

(** ** The monad: state and exceptions *)

Inductive res (A : Type) :=
| Ret (a : A)
| Raise (e : exn).
Arguments Ret {A} a.
Arguments Raise {A} e.

Definition M (A : Type) : Type := World -> res A * World.

Definition ret {A} (a : A) : M A := fun w => (Ret a, w).
Definition raise {A} (e : exn) : M A := fun w => (Raise e, w).
Definition bind {A B} (m : M A) (k : A -> M B) : M B :=
  fun w => match m w with
           | (Ret a, w') => k a w'
           | (Raise e, w') => (Raise e, w')
           end.

Notation "x <- m ;; k" := (bind m (fun x => k))
  (at level 100, m at next level, right associativity).
Notation "m ;; k" := (bind m (fun _ => k))
  (at level 100, right associativity).

(** [try: m except Exception as e: h e] *)
Definition try_except_Exception {A} (m : M A) (h : exn -> M A) : M A :=
  fun w => match m w with
           | (Raise e, w') => if is_Exception e then h e w' else (Raise e, w')
           | r => r
           end.

(** [try: m except: h] (a bare [except] also catches [SystemExit]) *)
Definition try_except_all {A} (m : M A) (h : M A) : M A :=
  fun w => match m w with
           | (Raise e, w') => h w'
           | r => r
           end.

(** [try: m except TypeError: h] *)
Definition try_except_TypeError {A} (m : M A) (h : M A) : M A :=
  fun w => match m w with
           | (Raise TypeError, w') => h w'
           | r => r
           end.

(** [for x in xs: body x] *)
Fixpoint for_each {A} (xs : list A) (body : A -> M unit) : M unit :=
  match xs with
  | [] => ret tt
  | x :: rest => body x ;; for_each rest body
  end.

(** [range(n)] *)
Definition range (n : Z) : list Z := map Z.of_nat (seq 0 (Z.to_nat n)).

(** ** Python built-ins and the [os] / [sys] modules *)

(** [print(...)] *)
Definition print (l : line) : M unit :=
  fun w => (Ret tt, set_stdout (fun out => out ++ [l]) w).

(** [sys.exit(code)] *)
Definition sys_exit {A} (code : Z) : M A := raise (SystemExit code).

(** [a / b] on two ints: true division. *)
Definition truediv (a b : Z) : M Q :=
  if (b =? 0)%Z then raise ZeroDivisionError
  else ret (inject_Z a / inject_Z b)%Q.

(** [os.path.exists(p)] *)
Definition os_path_exists (p : string) : M bool :=
  fun w => (Ret (match fs w !! p with Some _ => true | None => false end), w).

(** [os.path.dirname(p)], POSIX flavour: everything up to the last ['/'],
    with trailing slashes stripped unless the head is all slashes. *)
Fixpoint rfind_slash (p : string) : option nat :=
  match p with
  | EmptyString => None
  | String c rest =>
      match rfind_slash rest with
      | Some i => Some (S i)
      | None => if Ascii.eqb c "/" then Some 0%nat else None
      end
  end.

Fixpoint all_slashes (s : string) : bool :=
  match s with
  | EmptyString => true
  | String c rest => Ascii.eqb c "/" && all_slashes rest
  end.

Fixpoint rstrip_slash (s : string) : string :=
  match s with
  | EmptyString => EmptyString
  | String c rest =>
      if all_slashes (String c rest) then EmptyString
      else String c (rstrip_slash rest)
  end.

Definition dirname (p : string) : string :=
  match rfind_slash p with
  | None => ""
  | Some i =>
      let head := String.substring 0 (S i) p in
      if all_slashes head then head else rstrip_slash head
  end.

(** [os.path.basename(p)], POSIX flavour. *)
Definition basename (p : string) : string :=
  match rfind_slash p with
  | None => p
  | Some i => String.substring (S i) (String.length p - S i) p
  end.

(** [os.makedirs(name, exist_ok=True)]: the empty name is refused by
    [mkdir] with [FileNotFoundError] (and [isdir('')] is false, so
    [exist_ok] does not absorb it); an existing directory is accepted; an
    existing file is [FileExistsError]; otherwise the directory appears. *)
Definition os_makedirs (name : string) : M unit :=
  fun w =>
    if String.eqb name "" then (Raise FileNotFoundError, w)
    else match fs w !! name with
         | Some Dir => (Ret tt, w)
         | Some _ => (Raise FileExistsError, w)
         | None => (Ret tt, set_fs (fun m => <[name := Dir]> m) w)
         end.

(** [os.path.getsize(p)] *)
Definition os_path_getsize (p : string) : M Z :=
  fun w => match fs w !! p with
           | Some n => (Ret (file_size (host w) n), w)
           | None => (Raise FileNotFoundError, w)
           end.

(** [l.index(x)]: position of the first occurrence. *)
Fixpoint list_index (x : string) (l : list string) : option nat :=
  match l with
  | [] => None
  | y :: rest => if String.eqb y x then Some 0%nat
                 else option_map S (list_index x rest)
  end.

(** [argv[i]] once [len(argv)] has been checked. *)
Definition item (argv : list string) (i : nat) : string := nth i argv "".

(** [s * n] on a string. *)
Fixpoint str_mul (s : string) (n : nat) : string :=
  match n with
  | O => ""
  | S k => s +:+ str_mul s k
  end.

Definition newline : string := String (ascii_of_nat 10) "".

(** [float(s)] on a string is taken from the Python runtime as a partial
    function [py_float]; [None] stands for [ValueError]. *)
Definition float_of (py_float : string -> option Q) (s : string) : M Q :=
  match py_float s with
  | Some q => ret q
  | None => raise ValueError
  end.

(** ** The host: [bpy] *)

(** [bpy.ops.object.select_all(action='SELECT')] followed by
    [bpy.ops.object.delete(use_global=False)]: every object of the scene is
    removed. Materials, images and textures stay in [bpy.data]. *)
Definition select_all_and_delete : M unit :=
  fun w => (Ret tt, set_active None (set_objects (fun _ => []) w)).

(** [bpy.ops.object.select_all(action='DESELECT')]: selection flags are
    not part of the model. *)
Definition deselect_all : M unit := ret tt.

(** [bpy.data.images.load(path)] returns a reference to a new image
    data-block; a file the loader cannot read raises. *)
Definition images_load (path : string) : M nat :=
  fun w => match fs w !! path with
           | Some (ImageFile wd ht) =>
               (Ret (length (images w)),
                set_images (fun l => l ++ [mkImage path (wd, ht)]) w)
           | _ => (Raise RuntimeError, w)
           end.

(** [img.size] *)
Definition image_size (img : nat) : M (Z * Z) :=
  fun w => match images w !! img with
           | Some i => (Ret (i_size i), w)
           | None => (Raise ReferenceError, w)
           end.

(** [bpy.data.textures.new(name=, type=)] *)
Definition textures_new (name type : string) : M nat :=
  fun w => (Ret (length (textures w)),
            set_textures (fun l => l ++ [mkTexture name type None]) w).

(** [texture.image = img] *)
Definition texture_set_image (t img : nat) : M unit :=
  fun w => (Ret tt,
            set_textures
              (alter (fun x => mkTexture (t_name x) (t_type x) (Some img)) t) w).

(** The [primitive_*_add] operators append an object and make it the
    active one. *)
Definition primitive_add (kind : prim) (name : string) (size : Q)
    (location : vec3) (scale : option vec3) : M unit :=
  fun w =>
    (Ret tt,
     set_active (Some (length (objects w)))
       (set_objects
          (fun l => l ++ [mkObject name kind size location scale
                                   (1, 1, 1)%Q [] None]) w)).

(** [bpy.ops.mesh.primitive_cube_add(size=, location=)] *)
Definition primitive_cube_add (size : Q) (location : vec3) : M unit :=
  primitive_add Cube "Cube" size location None.

(** [bpy.ops.mesh.primitive_plane_add(size=, location=)], with [scale=]
    when given. *)
Definition primitive_plane_add (size : Q) (location : vec3)
    (scale : option vec3) : M unit :=
  primitive_add Plane "Plane" size location scale.

(** [bpy.ops.mesh.primitive_uv_sphere_add(radius=, location=, scale=)] *)
Definition primitive_uv_sphere_add (radius : Q) (location scale : vec3) : M unit :=
  primitive_add UVSphere "Sphere" radius location (Some scale).

(** [bpy.context.active_object]; attribute access on [None] is an
    [AttributeError]. *)
Definition active_object : M nat :=
  fun w => match active w with
           | Some o => (Ret o, w)
           | None => (Raise AttributeError, w)
           end.

Definition alter_object (f : Object -> Object) (o : nat) : M unit :=
  fun w => (Ret tt, set_objects (alter f o) w).

(** [obj.scale = s] *)
Definition set_scale (o : nat) (s : vec3) : M unit :=
  alter_object (fun x => mkObject (o_name x) (o_prim x) (o_size x)
                  (o_location x) (o_add_scale x) s (o_materials x)
                  (o_unwrap x)) o.

(** [obj.name = s] *)
Definition set_name (o : nat) (s : string) : M unit :=
  alter_object (fun x => mkObject s (o_prim x) (o_size x)
                  (o_location x) (o_add_scale x) (o_scale x) (o_materials x)
                  (o_unwrap x)) o.

(** [obj.data.materials.append(mat)] *)
Definition materials_append (o mat : nat) : M unit :=
  alter_object (fun x => mkObject (o_name x) (o_prim x) (o_size x)
                  (o_location x) (o_add_scale x) (o_scale x)
                  (o_materials x ++ [mat]) (o_unwrap x)) o.

(** [bpy.ops.object.mode_set(mode=)] *)
Definition mode_set (m : string) : M unit :=
  fun w => (Ret tt, set_mode m w).

(** [bpy.ops.uv.unwrap(method=, margin=)] works on the object in edit
    mode. *)
Definition uv_unwrap (method : string) (margin : Q) : M unit :=
  fun w =>
    if String.eqb (mode w) "EDIT" then
      match active w with
      | Some o =>
          (Ret tt,
           set_objects
             (alter (fun x => mkObject (o_name x) (o_prim x) (o_size x)
                       (o_location x) (o_add_scale x) (o_scale x)
                       (o_materials x) (Some (method, margin))) o) w)
      | None => (Raise RuntimeError, w)
      end
    else (Raise RuntimeError, w).

(** *** Materials and their node trees *)

(** A reference to a shader node: the material that owns the tree and the
    node's index in it. *)
Definition noderef : Type := nat * nat.

(** [bpy.data.materials.new(name=)] *)
Definition materials_new (name : string) : M nat :=
  fun w => (Ret (length (materials w)),
            set_materials
              (fun l => l ++ [mkMaterial name false [] [] "OPAQUE"]) w).

Definition alter_material (f : Material -> Material) (mat : nat) : M unit :=
  fun w => (Ret tt, set_materials (alter f mat) w).

(** The tree a material gets when nodes are first switched on: a
    Principled BSDF wired to the Material Output. *)
Definition default_nodes : list Node :=
  [mkNode "Principled BSDF" "ShaderNodeBsdfPrincipled" None [];
   mkNode "Material Output" "ShaderNodeOutputMaterial" None []].
Definition default_links : list Link := [mkLink 0 "BSDF" 1 "Surface"].

(** [mat.use_nodes = True] *)
Definition set_use_nodes (mat : nat) : M unit :=
  alter_material
    (fun m => match m_nodes m with
              | [] => mkMaterial (m_name m) true default_nodes default_links
                                 (m_blend_method m)
              | _ => mkMaterial (m_name m) true (m_nodes m) (m_links m)
                                (m_blend_method m)
              end) mat.

Fixpoint find_node (name : string) (ns : list Node) : option nat :=
  match ns with
  | [] => None
  | n :: rest =>
      if String.eqb (n_name n) name then Some 0%nat
      else option_map S (find_node name rest)
  end.

(** [mat.node_tree.nodes[name]] *)
Definition nodes_get (mat : nat) (name : string) : M noderef :=
  fun w => match materials w !! mat with
           | Some m => match find_node name (m_nodes m) with
                       | Some i => (Ret (mat, i), w)
                       | None => (Raise KeyError, w)
                       end
           | None => (Raise ReferenceError, w)
           end.

(** [mat.node_tree.nodes.new('ShaderNodeTexImage')] *)
Definition nodes_new_tex_image (mat : nat) : M noderef :=
  fun w => match materials w !! mat with
           | Some m =>
               (Ret (mat, length (m_nodes m)),
                set_materials
                  (alter (fun m => mkMaterial (m_name m) (m_use_nodes m)
                            (m_nodes m ++ [mkNode "Image Texture"
                                             "ShaderNodeTexImage" None []])
                            (m_links m) (m_blend_method m)) mat) w)
           | None => (Raise ReferenceError, w)
           end.

Definition alter_node (f : Node -> Node) (n : noderef) : M unit :=
  alter_material
    (fun m => mkMaterial (m_name m) (m_use_nodes m)
                (alter f (snd n) (m_nodes m)) (m_links m) (m_blend_method m))
    (fst n).

(** [tex_node.image = img] *)
Definition node_set_image (n : noderef) (img : nat) : M unit :=
  alter_node (fun x => mkNode (n_name x) (n_type x) (Some img) (n_defaults x)) n.

(** [node.inputs[socket].default_value = v] *)
Definition set_default_value (n : noderef) (socket : string) (v : sockval) : M unit :=
  alter_node (fun x => mkNode (n_name x) (n_type x) (n_image x)
                         ((socket, v) :: n_defaults x)) n.

(** [mat.node_tree.links.new(a.outputs[from], b.inputs[to])] *)
Definition links_new (mat : nat) (a : noderef) (from : string)
    (b : noderef) (to : string) : M unit :=
  alter_material
    (fun m => mkMaterial (m_name m) (m_use_nodes m) (m_nodes m)
                (m_links m ++ [mkLink (snd a) from (snd b) to])
                (m_blend_method m)) mat.

(** [mat.blend_method = s] *)
Definition set_blend_method (mat : nat) (s : string) : M unit :=
  alter_material
    (fun m => mkMaterial (m_name m) (m_use_nodes m) (m_nodes m) (m_links m) s)
    mat.

(** *** Operator properties *)





(** [self.report({level}, message)] *)
Definition report (level : string) (message : line) : M unit :=
  fun w => (Ret tt, set_reports (fun l => l ++ [(level, message)]) w).

(** [bpy.ops.import_scene.fbx(filepath=, ...)] *)
Definition import_scene_fbx (path : string) : M unit :=
  fun w => match fbx_import (host w) path with
           | Some objs => (Ret tt, set_objects (fun l => l ++ objs) w)
           | None => (Raise RuntimeError, w)
           end.

(** [for material in bpy.data.materials: bpy.data.materials.remove(material)] *)
Definition remove_all_materials : M unit :=
  fun w => (Ret tt, set_materials (fun _ => []) w).

(** *** The glTF exporter *)

Record export_params := mkParams {
  filepath : string;
  export_format : string;
  export_materials : string;
  export_normals : option bool;
  export_texcoords : option bool;
}.

(** [bpy.ops.export_scene.gltf] called with the keywords of [params], and
    with [export_colors=True] added when [colors] is set. An unknown
    keyword is a [TypeError] before anything is written; a write the host
    cannot do is a [RuntimeError]; otherwise the file holds the scene. *)
Definition export_scene_gltf (params : export_params) (colors : bool) : M unit :=
  fun w =>
    if colors && negb (gltf_accepts_colors (host w)) then (Raise TypeError, w)
    else if gltf_can_write (host w) (filepath params) then
      (Ret tt,
       set_fs (fun m => <[filepath params := GlbFile (objects w) (materials w)]> m) w)
    else (Raise RuntimeError, w).

(** [f"{i}"] for an int. *)
Definition str_of_int (i : Z) : string := pretty i.

(** ** scripts/blender-sprite-to-3d.py *)

Module SpriteTo3D.

(** The [method == 'extrude'] branch. *)
Definition extrude_branch (image_path : string) (scale_x scale_y depth : Q)
    : M unit :=
  primitive_cube_add 2 (0, 0, 0)%Q ;;
  obj <- active_object ;;
  set_scale obj (scale_x, scale_y, depth) ;;
  (* Load texture *)
  img <- images_load image_path ;;
  texture <- textures_new "SpriteTexture" "IMAGE" ;;
  texture_set_image texture img ;;
  (* Create material *)
  mat <- materials_new "SpriteMaterial" ;;
  set_use_nodes mat ;;
  bsdf <- nodes_get mat "Principled BSDF" ;;
  (* Add image texture node *)
  tex_node <- nodes_new_tex_image mat ;;
  node_set_image tex_node img ;;
  links_new mat tex_node "Color" bsdf "Base Color" ;;
  links_new mat tex_node "Alpha" bsdf "Alpha" ;;
  (* Enable transparency *)
  set_blend_method mat "BLEND" ;;
  set_default_value bsdf "Alpha" (VFloat 1.0) ;;
  materials_append obj mat ;;
  (* UV unwrap *)
  mode_set "EDIT" ;;
  uv_unwrap "ANGLE_BASED" 0.001 ;;
  mode_set "OBJECT".

(** One turn of the loop of the [method == 'voxel'] branch. *)
Definition voxel_layer (img : nat) (scale_x depth : Q) (layers i : Z)
    : M unit :=
  let y_pos := ((inject_Z i / inject_Z layers - 0.5) * depth)%Q in
  primitive_plane_add 2 (0, y_pos, 0)%Q (Some (scale_x, 1.0, 1.0)%Q) ;;
  obj <- active_object ;;
  set_name obj ("SpriteLayer_" +:+ str_of_int i) ;;
  (* Create material *)
  mat <- materials_new ("SpriteMaterial_" +:+ str_of_int i) ;;
  set_use_nodes mat ;;
  bsdf <- nodes_get mat "Principled BSDF" ;;
  tex_node <- nodes_new_tex_image mat ;;
  node_set_image tex_node img ;;
  links_new mat tex_node "Color" bsdf "Base Color" ;;
  links_new mat tex_node "Alpha" bsdf "Alpha" ;;
  set_blend_method mat "BLEND" ;;
  materials_append obj mat.

(** The [method == 'voxel'] branch. *)
Definition voxel_branch (img : nat) (scale_x depth : Q) : M unit :=
  let layers := 8%Z in
  let layer_height := (depth / inject_Z layers)%Q in
  for_each (range layers) (voxel_layer img scale_x depth layers).

(** The export at the end of the function. *)
Definition export_glb (output_path : string) : M unit :=
  print [Str "Exporting to: "; Str output_path] ;;
  let params := mkParams output_path "GLB" "EXPORT" (Some true) (Some true) in
  try_except_TypeError
    (export_scene_gltf params true)
    (export_scene_gltf params false).

Definition create_3d_from_sprite (image_path output_path : string)
    (depth : Q) (method : string) : M bool :=
  print [Str "Loading sprite: "; Str image_path] ;;
  found <- os_path_exists image_path ;;
  if negb found then
    print [Str "Error: Image not found: "; Str image_path] ;;
    ret false
  else
    loaded <- try_except_Exception
                (img <- images_load image_path ;; ret (Some img))
                (fun e => print [Str "Error loading image: "; Exc e] ;;
                          ret None) ;;
    match loaded with
    | None => ret false
    | Some img =>
        size <- image_size img ;;
        let '(width, height) := size in
        aspect <- truediv width height ;;
        let scale_x := aspect in
        let scale_y := 1.0%Q in
        print [Str "Image size: "; Int width; Str "x"; Int height;
               Str ", aspect: "; Flt2 aspect] ;;
        (if String.eqb method "extrude" then
           extrude_branch image_path scale_x scale_y depth
         else if String.eqb method "voxel" then
           voxel_branch img scale_x depth
         else ret tt) ;;
        export_glb output_path ;;
        print [Str "✅ Successfully exported: "; Str output_path] ;;
        ret true
    end.

Section Main.
Variable py_float : string -> option Q.

Definition main (sys_argv : list string) : M unit :=
  let argv := sys_argv in
  let argv := match list_index "--" argv with
              | Some i => drop (i + 1) argv
              | None => []
              end in
  if (length argv <? 2)%nat then
    print [Str "Usage: blender --background --python blender-sprite-to-3d.py -- <sprite_path> <output_path> [depth] [method]"] ;;
    print [Str "Example: blender --background --python blender-sprite-to-3d.py -- sprite.png output.glb 0.5 extrude"] ;;
    ret tt
  else
    let image_path := item argv 0 in
    let output_path := item argv 1 in
    depth <- (if (2 <? length argv)%nat then float_of py_float (item argv 2)
              else ret 0.5%Q) ;;
    let method := if (3 <? length argv)%nat then item argv 3 else "extrude" in
    (* Ensure output directory exists *)
    os_makedirs (if negb (String.eqb (dirname output_path) "")
                 then dirname output_path else ".") ;;
    success <- create_3d_from_sprite image_path output_path depth method ;;
    sys_exit (if success then 0 else 1)%Z.

(** The module run as a script: the scene is cleared when the module
    body is executed, then [main()] is called. *)
Definition script (sys_argv : list string) : M unit :=
  select_all_and_delete ;;
  main sys_argv.

End Main.

End SpriteTo3D.

(** ** scripts/blender-character-to-3d.py *)

Module CharacterTo3D.

(** [load_sprite_image]: [None] for a missing file; a failing
    [images.load] is not caught here. *)
Definition load_sprite_image (image_path : string) : M (option nat) :=
  found <- os_path_exists image_path ;;
  if negb found then
    print [Str "Error: Image not found: "; Str image_path] ;;
    ret None
  else
    img <- images_load image_path ;;
    ret (Some img).

(** The [method == 'billboard'] branch. *)
Definition billboard_branch (img : nat) (aspect : Q) : M unit :=
  primitive_plane_add 2 (0, 0, 0)%Q None ;;
  obj <- active_object ;;
  set_scale obj (aspect, 1.0, 1.0)%Q ;;
  set_name obj "CharacterBillboard" ;;
  (* Create material *)
  mat <- materials_new "CharacterMaterial" ;;
  set_use_nodes mat ;;
  bsdf <- nodes_get mat "Principled BSDF" ;;
  tex_node <- nodes_new_tex_image mat ;;
  node_set_image tex_node img ;;
  links_new mat tex_node "Color" bsdf "Base Color" ;;
  links_new mat tex_node "Alpha" bsdf "Alpha" ;;
  set_blend_method mat "BLEND" ;;
  materials_append obj mat ;;
  print [Str "Created billboard character"].

(** The [method == 'billboard-depth'] branch. *)
Definition billboard_depth_branch (img : nat) (aspect depth : Q) : M unit :=
  (* Create main plane *)
  primitive_plane_add 2 (0, 0, 0)%Q None ;;
  obj <- active_object ;;
  set_scale obj (aspect, 1.0, 1.0)%Q ;;
  set_name obj "CharacterBillboard" ;;
  (* Create material *)
  mat <- materials_new "CharacterMaterial" ;;
  set_use_nodes mat ;;
  bsdf <- nodes_get mat "Principled BSDF" ;;
  tex_node <- nodes_new_tex_image mat ;;
  node_set_image tex_node img ;;
  links_new mat tex_node "Color" bsdf "Base Color" ;;
  links_new mat tex_node "Alpha" bsdf "Alpha" ;;
  set_blend_method mat "BLEND" ;;
  materials_append obj mat ;;
  (* Add slight depth shadow/outline plane behind *)
  primitive_plane_add 2 (0, - depth, 0)%Q None ;;
  shadow_obj <- active_object ;;
  set_scale shadow_obj (aspect * 1.05, 1.05, 1.0)%Q ;;
  set_name shadow_obj "CharacterShadow" ;;
  (* Dark shadow material *)
  shadow_mat <- materials_new "CharacterShadowMaterial" ;;
  set_use_nodes shadow_mat ;;
  shadow_bsdf <- nodes_get shadow_mat "Principled BSDF" ;;
  set_default_value shadow_bsdf "Base Color" (VColor 0 0 0 1) ;;
  set_default_value shadow_bsdf "Alpha" (VFloat 0.3) ;;
  set_blend_method shadow_mat "BLEND" ;;
  materials_append shadow_obj shadow_mat ;;
  print [Str "Created billboard with depth shadow (depth: "; Flt depth;
         Str ")"].

(** The [method == 'capsule'] branch. *)
Definition capsule_branch (img : nat) (aspect : Q) : M unit :=
  (* Create capsule (approximates character body) *)
  primitive_uv_sphere_add 0.5 (0, 0, 0.5)%Q (aspect * 0.6, 0.6, 1.0)%Q ;;
  body <- active_object ;;
  set_name body "CharacterBody" ;;
  (* Create material *)
  mat <- materials_new "CharacterMaterial" ;;
  set_use_nodes mat ;;
  bsdf <- nodes_get mat "Principled BSDF" ;;
  tex_node <- nodes_new_tex_image mat ;;
  node_set_image tex_node img ;;
  (* Use emission for better sprite visibility *)
  links_new mat tex_node "Color" bsdf "Base Color" ;;
  links_new mat tex_node "Color" bsdf "Emission Color" ;;
  set_default_value bsdf "Emission Strength" (VFloat 0.5) ;;
  links_new mat tex_node "Alpha" bsdf "Alpha" ;;
  set_blend_method mat "BLEND" ;;
  materials_append body mat ;;
  (* Add billboard plane in front for main sprite *)
  primitive_plane_add 2 (0, 0.1, 0.5)%Q None ;;
  billboard <- active_object ;;
  set_scale billboard (aspect, 1.0, 1.0)%Q ;;
  set_name billboard "CharacterSprite" ;;
  billboard_mat <- materials_new "CharacterSpriteMaterial" ;;
  set_use_nodes billboard_mat ;;
  billboard_bsdf <- nodes_get billboard_mat "Principled BSDF" ;;
  billboard_tex <- nodes_new_tex_image billboard_mat ;;
  node_set_image billboard_tex img ;;
  links_new billboard_mat billboard_tex "Color" billboard_bsdf "Base Color" ;;
  links_new billboard_mat billboard_tex "Alpha" billboard_bsdf "Alpha" ;;
  set_blend_method billboard_mat "BLEND" ;;
  materials_append billboard billboard_mat ;;
  print [Str "Created capsule character with billboard sprite"].

(** The export at the end of the function. *)
Definition export_glb (output_path : string) : M unit :=
  print [Str "Exporting to: "; Str output_path] ;;
  let params := mkParams output_path "GLB" "EXPORT" (Some true) (Some true) in
  try_except_TypeError
    (export_scene_gltf params true)
    (export_scene_gltf params false).

Definition create_billboard_character (image_path output_path : string)
    (method : string) (depth : Q) : M bool :=
  print [Str "Loading character sprite: "; Str image_path] ;;
  img <- load_sprite_image image_path ;;
  match img with
  | None => ret false
  | Some img =>
      size <- image_size img ;;
      let '(width, height) := size in
      aspect <- truediv width height ;;
      print [Str "Character sprite: "; Int width; Str "x"; Int height;
             Str " (aspect: "; Flt2 aspect; Str ")"] ;;
      (if String.eqb method "billboard" then
         billboard_branch img aspect
       else if String.eqb method "billboard-depth" then
         billboard_depth_branch img aspect depth
       else if String.eqb method "capsule" then
         capsule_branch img aspect
       else ret tt) ;;
      export_glb output_path ;;
      print [Str "âœ… Successfully exported: "; Str output_path] ;;
      ret true
  end.

Section Main.
Variable py_float : string -> option Q.

Definition main (sys_argv : list string) : M unit :=
  let argv := sys_argv in
  let argv := match list_index "--" argv with
              | Some i => drop (i + 1) argv
              | None => []
              end in
  if (length argv <? 2)%nat then
    print [Str "Usage: blender --background --python blender-character-to-3d.py -- <sprite_path> <output_path> [method] [depth]"] ;;
    print [Str "Methods: billboard, billboard-depth, capsule"] ;;
    print [Str "Example: blender --background --python blender-character-to-3d.py -- sprite.png output.glb billboard-depth 0.1"] ;;
    ret tt
  else
    let image_path := item argv 0 in
    let output_path := item argv 1 in
    let method := if (2 <? length argv)%nat then item argv 2
                  else "billboard-depth" in
    depth <- (if (3 <? length argv)%nat then float_of py_float (item argv 3)
              else ret 0.1%Q) ;;
    os_makedirs (if negb (String.eqb (dirname output_path) "")
                 then dirname output_path else ".") ;;
    success <- create_billboard_character image_path output_path method depth ;;
    sys_exit (if success then 0 else 1)%Z.

(** The module run as a script. *)
Definition script (sys_argv : list string) : M unit :=
  select_all_and_delete ;;
  main sys_argv.

End Main.

End CharacterTo3D.

(** ** scripts/blender-quick-convert.py *)

Module QuickConvert.

Definition SPRITE_PATH : string :=
  "X:\Prototype\public\public\assets\isometric-tiles\b652a0a7-369b-41f0-88d4-696d1c96150c.png".
Definition OUTPUT_PATH : string :=
  "X:\Prototype\public\assets\models\test-output.glb".
Definition DEPTH : Q := 0.5.
Definition METHOD : string := "voxel".

(** The [method == 'extrude'] branch. *)
Definition extrude_branch (img : nat) (aspect depth : Q) : M unit :=
  (* Create box *)
  primitive_cube_add 2 (0, 0, 0)%Q ;;
  obj <- active_object ;;
  set_scale obj (aspect, 1.0, depth)%Q ;;
  set_name obj "Sprite3D" ;;
  (* Create material *)
  mat <- materials_new "SpriteMaterial" ;;
  set_use_nodes mat ;;
  bsdf <- nodes_get mat "Principled BSDF" ;;
  (* Add image texture *)
  tex_node <- nodes_new_tex_image mat ;;
  node_set_image tex_node img ;;
  links_new mat tex_node "Color" bsdf "Base Color" ;;
  links_new mat tex_node "Alpha" bsdf "Alpha" ;;
  (* Enable transparency *)
  set_blend_method mat "BLEND" ;;
  set_default_value bsdf "Alpha" (VFloat 1.0) ;;
  materials_append obj mat ;;
  (* UV unwrap *)
  mode_set "EDIT" ;;
  uv_unwrap "ANGLE_BASED" 0.001 ;;
  mode_set "OBJECT" ;;
  print [Str "Created extruded model"].

(** One turn of the loop of the [method == 'voxel'] branch. *)
Definition voxel_layer (img : nat) (aspect depth : Q) (layers i : Z)
    : M unit :=
  let y_pos := ((inject_Z i / inject_Z layers - 0.5) * depth)%Q in
  primitive_plane_add 2 (0, y_pos, 0)%Q (Some (aspect, 1.0, 1.0)%Q) ;;
  obj <- active_object ;;
  set_name obj ("SpriteLayer_" +:+ str_of_int i) ;;
  (* Create material *)
  mat <- materials_new ("SpriteMaterial_" +:+ str_of_int i) ;;
  set_use_nodes mat ;;
  bsdf <- nodes_get mat "Principled BSDF" ;;
  tex_node <- nodes_new_tex_image mat ;;
  node_set_image tex_node img ;;
  links_new mat tex_node "Color" bsdf "Base Color" ;;
  set_blend_method mat "BLEND" ;;
  materials_append obj mat.

(** The [method == 'voxel'] branch. *)
Definition voxel_branch (img : nat) (aspect depth : Q) : M unit :=
  let layers := 8%Z in
  let layer_height := (depth / inject_Z layers)%Q in
  for_each (range layers) (voxel_layer img aspect depth layers) ;;
  print [Str "Created voxel model with "; Int layers; Str " layers"].

(** The export at the end of the function; the directory of the output
    path is created first, whatever [dirname] returns. *)
Definition export_glb (output_path : string) : M unit :=
  os_makedirs (dirname output_path) ;;
  print [Str "Exporting to: "; Str output_path] ;;
  let params := mkParams output_path "GLB" "EXPORT" (Some true) (Some true) in
  try_except_TypeError
    (export_scene_gltf params true)
    (export_scene_gltf params false).

Definition convert_sprite_to_3d (sprite_path output_path : string)
    (depth : Q) (method : string) : M bool :=
  (* Clear existing mesh *)
  select_all_and_delete ;;
  (* Load image *)
  found <- os_path_exists sprite_path ;;
  if negb found then
    print [Str "ERROR: File not found: "; Str sprite_path] ;;
    ret false
  else
    loaded <- try_except_Exception
                (img <- images_load sprite_path ;; ret (Some img))
                (fun e => print [Str "ERROR: Failed to load image: "; Exc e] ;;
                          ret None) ;;
    match loaded with
    | None => ret false
    | Some img =>
        size <- image_size img ;;
        let '(width, height) := size in
        aspect <- truediv width height ;;
        print [Str "Loaded sprite: "; Int width; Str "x"; Int height;
               Str " (aspect: "; Flt2 aspect; Str ")"] ;;
        (if String.eqb method "extrude" then
           extrude_branch img aspect depth
         else if String.eqb method "voxel" then
           voxel_branch img aspect depth
         else ret tt) ;;
        export_glb output_path ;;
        print [Str "✅ Success! Exported to: "; Str output_path] ;;
        ret true
    end.

(** The [if __name__ == "__main__":] block. *)
Definition script : M unit :=
  print [Str (newline +:+ str_mul "=" 50)] ;;
  print [Str "Sprite to 3D Converter"] ;;
  print [Str (str_mul "=" 50 +:+ newline)] ;;
  success <- convert_sprite_to_3d SPRITE_PATH OUTPUT_PATH DEPTH METHOD ;;
  if success then
    print [Str (newline +:+ "✅ Conversion complete!")] ;;
    print [Str "Model saved to: "; Str OUTPUT_PATH] ;;
    print [Str (newline +:+ "To convert more sprites:")] ;;
    print [Str "1. Change SPRITE_PATH and OUTPUT_PATH above"] ;;
    print [Str "2. Run script again (Alt+P)"]
  else
    print [Str (newline +:+ "❌ Conversion failed. Check paths and try again.")].

End QuickConvert.

(** ** scripts/blender-addon-sprite-converter.py

    The operator class with its properties and [execute]; registration,
    the menu entry and [invoke] (the file selector) only wire the operator
    into the user interface. *)

Module Addon.

Inductive status := FINISHED | CANCELLED.


(** An instance of the operator class [ConvertSpriteTo3D]. *)
Record ConvertSpriteTo3D := mkOperator {
  self_filepath : string;
  self_depth : Q;
  self_method : string;
}.

(** The [self.method == 'EXTRUDE'] branch. *)
Definition extrude_branch (img : nat) (aspect depth : Q) : M unit :=
  (* Create box *)
  primitive_cube_add 2 (0, 0, 0)%Q ;;
  obj <- active_object ;;
  set_scale obj (aspect, 1.0, depth)%Q ;;
  (* Create material with image texture *)
  mat <- materials_new "SpriteMaterial" ;;
  set_use_nodes mat ;;
  bsdf <- nodes_get mat "Principled BSDF" ;;
  (* Add image texture *)
  tex_node <- nodes_new_tex_image mat ;;
  node_set_image tex_node img ;;
  links_new mat tex_node "Color" bsdf "Base Color" ;;
  links_new mat tex_node "Alpha" bsdf "Alpha" ;;
  (* Enable transparency *)
  set_blend_method mat "BLEND" ;;
  set_default_value bsdf "Alpha" (VFloat 1.0) ;;
  materials_append obj mat ;;
  (* UV unwrap *)
  mode_set "EDIT" ;;
  uv_unwrap "ANGLE_BASED" 0.001 ;;
  mode_set "OBJECT".

(** One turn of the loop of the [self.method == 'VOXEL'] branch. *)
Definition voxel_layer (img : nat) (aspect depth : Q) (layers i : Z)
    : M unit :=
  let y_pos := ((inject_Z i / inject_Z layers - 0.5) * depth)%Q in
  primitive_plane_add 2 (0, y_pos, 0)%Q (Some (aspect, 1.0, 1.0)%Q) ;;
  obj <- active_object ;;
  set_name obj ("SpriteLayer_" +:+ str_of_int i) ;;
  (* Create material *)
  mat <- materials_new ("SpriteMaterial_" +:+ str_of_int i) ;;
  set_use_nodes mat ;;
  bsdf <- nodes_get mat "Principled BSDF" ;;
  tex_node <- nodes_new_tex_image mat ;;
  node_set_image tex_node img ;;
  links_new mat tex_node "Color" bsdf "Base Color" ;;
  set_blend_method mat "BLEND" ;;
  materials_append obj mat.

(** The [self.method == 'VOXEL'] branch. *)
Definition voxel_branch (img : nat) (aspect depth : Q) : M unit :=
  let layers := 8%Z in
  let layer_height := (depth / inject_Z layers)%Q in
  for_each (range layers) (voxel_layer img aspect depth layers).

Definition execute (self : ConvertSpriteTo3D) : M status :=
  found <- os_path_exists (self_filepath self) ;;
  if negb found then
    report "ERROR" [Str "File not found: "; Str (self_filepath self)] ;;
    ret CANCELLED
  else
    (* Clear selection *)
    deselect_all ;;
    (* Load image *)
    loaded <- try_except_all
                (img <- images_load (self_filepath self) ;; ret (Some img))
                (report "ERROR" [Str "Failed to load image: ";
                                 Str (self_filepath self)] ;;
                 ret None) ;;
    match loaded with
    | None => ret CANCELLED
    | Some img =>
        size <- image_size img ;;
        let '(width, height) := size in
        aspect <- truediv width height ;;
        (if String.eqb (self_method self) "EXTRUDE" then
           extrude_branch img aspect (self_depth self)
         else if String.eqb (self_method self) "VOXEL" then
           voxel_branch img aspect (self_depth self)
         else ret tt) ;;
        report "INFO" [Str "Created 3D model from ";
                       Str (basename (self_filepath self))] ;;
        ret FINISHED
    end.


End Addon.

(** ** scripts/blender-fbx-to-glb.py *)

Module FbxToGlb.

(** The export step inside the final [try]. *)
Definition export_glb (output_path : string) : M unit :=
  let params := mkParams output_path "GLB" "EXPORT" None None in
  export_scene_gltf params false ;;
  print [Str "✓ Exported GLB: "; Str output_path] ;;
  (* Get file size *)
  found <- os_path_exists output_path ;;
  if found then
    size <- os_path_getsize output_path ;;
    let size_kb := (inject_Z size / 1024)%Q in
    print [Str "  File size: "; Flt2 size_kb; Str " KB"]
  else ret tt.

(** The module body; [logging], [warnings] and the redirection of
    [sys.stderr] have no counterpart in the model, and mesh data-blocks
    are part of their objects. *)
Definition script (sys_argv : list string) : M unit :=
  let argv := sys_argv in
  match list_index "--" argv with
  | None => raise ValueError
  | Some i =>
      let argv := drop (i + 1) argv in
      if (length argv <? 2)%nat then
        print [Str "Usage: blender --background --python blender-fbx-to-glb.py -- input.fbx output.glb"] ;;
        sys_exit 1
      else
        let input_path := item argv 0 in
        let output_path := item argv 1 in
        print [Str (newline +:+ str_mul "=" 50)] ;;
        print [Str "FBX to GLB Converter"] ;;
        print [Str (str_mul "=" 50)] ;;
        print [Str "Input:  "; Str input_path] ;;
        print [Str "Output: "; Str output_path] ;;
        (* Check if input file exists *)
        found <- os_path_exists input_path ;;
        if negb found then
          print [Str "ERROR: Input file not found: "; Str input_path] ;;
          sys_exit 1
        else
          (* Clear existing scene *)
          select_all_and_delete ;;
          remove_all_materials ;;
          print [Str "Cleared scene"] ;;
          (* Import FBX *)
          try_except_Exception
            (import_scene_fbx input_path ;;
             print [Str "✓ Imported FBX"])
            (fun e => print [Str "ERROR: Failed to import FBX: "; Exc e] ;;
                      sys_exit 1) ;;
          (* Ensure output directory exists *)
          let output_dir := dirname output_path in
          dir_found <- os_path_exists output_dir ;;
          (if negb (String.eqb output_dir "") && negb dir_found then
             os_makedirs output_dir ;;
             print [Str "Created output directory: "; Str output_dir]
           else ret tt) ;;
          (* Export as GLB *)
          try_except_Exception
            (export_glb output_path)
            (fun e => print [Str "ERROR: Failed to export GLB: "; Exc e] ;;
                      sys_exit 1) ;;
          print [Str (newline +:+ str_mul "=" 50)] ;;
          print [Str "✓ Conversion complete!"] ;;
          print [Str (str_mul "=" 50 +:+ newline)]
  end.

End FbxToGlb.

(** ** Concrete runs *)

(** A reading of [float(s)] for plain decimal numerals (optional sign,
    digits, at most one point, at least one digit), used to run the
    scripts on concrete command lines. *)
Definition digit_of (c : ascii) : option Z :=
  let n := nat_of_ascii c in
  if (48 <=? n)%nat && (n <=? 57)%nat then Some (Z.of_nat (n - 48)) else None.

Fixpoint scan_decimal (s : string) (num : Z) (den : positive)
    (dot any : bool) : option Q :=
  match s with
  | EmptyString => if any then Some (num # den)%Q else None
  | String c rest =>
      if Ascii.eqb c "." then
        if dot then None else scan_decimal rest num den true any
      else
        match digit_of c with
        | Some d => scan_decimal rest (num * 10 + d)%Z
                      (if dot then (den * 10)%positive else den) dot true
        | None => None
        end
  end.

Definition decimal_float (s : string) : option Q :=
  match s with
  | String c rest =>
      if Ascii.eqb c "-" then option_map Qopp (scan_decimal rest 0 1 false false)
      else if Ascii.eqb c "+" then scan_decimal rest 0 1 false false
      else scan_decimal s 0 1 false false
  | EmptyString => None
  end.

(** A host whose exporter takes [export_colors] and can write anywhere. *)
Definition plain_host : Host :=
  mkHost true (fun _ => true) (fun _ => None) (fun _ => 0%Z).

(** A fresh session over the given files. *)
Definition session (files : gmap string node) : World :=
  mkWorld files plain_host [] [] [] [] None "OBJECT" [] [].

(** One 800x400 sprite in the working directory. *)
Definition wide_sprite : World :=
  session (<["sprite.png" := ImageFile 800 400]> ∅).

(** The same files, a file the image loader rejects, and a host whose
    exporter cannot write. *)
Definition read_only_session : World :=
  mkWorld (<["broken.png" := Unreadable]> (fs wide_sprite))
    (mkHost true (fun _ => false) (fun _ => None) (fun _ => 0%Z))
    [] [] [] [] None "OBJECT" [] [].

(** ** Reading a scene *)

(** [binds m img from to]: in material [m], output [from] of an image
    texture node showing image [img] is linked to input [to] of the
    Principled BSDF. *)
Definition binds (m : Material) (img : nat) (from to : string) : bool :=
  existsb
    (fun l =>
       match m_nodes m !! l_from_node l, m_nodes m !! l_to_node l with
       | Some a, Some b =>
           String.eqb (n_type a) "ShaderNodeTexImage"
           && bool_decide (n_image a = Some img)
           && String.eqb (n_type b) "ShaderNodeBsdfPrincipled"
           && String.eqb (l_from l) from
           && String.eqb (l_to l) to
       | _, _ => false
       end)
    (m_links m).

(** [fed m to]: some link ends in input [to] of the Principled BSDF. *)
Definition fed (m : Material) (to : string) : bool :=
  existsb
    (fun l =>
       match m_nodes m !! l_to_node l with
       | Some b => String.eqb (n_type b) "ShaderNodeBsdfPrincipled"
                   && String.eqb (l_to l) to
       | None => false
       end)
    (m_links m).

(** The value the script gave to [default_value] of input [socket] of the
    Principled BSDF, if it gave one. *)
Definition bsdf_default (m : Material) (socket : string) : option sockval :=
  match find_node "Principled BSDF" (m_nodes m) with
  | Some i =>
      match m_nodes m !! i with
      | Some n => snd <$> List.find (fun d => String.eqb (fst d) socket)
                                    (n_defaults n)
      | None => None
      end
  | None => None
  end.

Definition y_of (o : Object) : Q := snd (fst (o_location o)).
Definition z_of (o : Object) : Q := snd (o_location o).

(** ** What the loop of a voxel branch leaves *)

Section LayerShapes.
Variables (alpha : bool) (img : nat) (scale_x depth : Q) (layers : Z).

(** The plane one turn of the loop leaves in the scene. *)
Definition layer_plane (mat : nat) (i : Z) : Object :=
  mkObject ("SpriteLayer_" +:+ str_of_int i) Plane 2
    (0, (inject_Z i / inject_Z layers - 0.5) * depth, 0)%Q
    (Some (scale_x, 1.0, 1.0)%Q) (1, 1, 1)%Q [mat] None.

(** The material one turn of the loop leaves in [bpy.data.materials];
    [alpha] tells whether the turn links the texture's alpha. *)
Definition layer_material (i : Z) : Material :=
  mkMaterial ("SpriteMaterial_" +:+ str_of_int i) true
    [mkNode "Principled BSDF" "ShaderNodeBsdfPrincipled" None [];
     mkNode "Material Output" "ShaderNodeOutputMaterial" None [];
     mkNode "Image Texture" "ShaderNodeTexImage" (Some img) []]
    (mkLink 0 "BSDF" 1 "Surface"
     :: mkLink 2 "Color" 0 "Base Color"
     :: if alpha then [mkLink 2 "Alpha" 0 "Alpha"] else [])
    "BLEND".

(** The world after one turn. *)
Definition add_layer (w : World) (i : Z) : World :=
  set_active (Some (length (objects w)))
    (set_objects (fun l => l ++ [layer_plane (length (materials w)) i])
       (set_materials (fun l => l ++ [layer_material i]) w)).

(** The planes of successive turns; the first uses material [mat]. *)
Fixpoint layer_planes (mat : nat) (turns : list Z) : list Object :=
  match turns with
  | [] => []
  | i :: rest => layer_plane mat i :: layer_planes (S mat) rest
  end.

End LayerShapes.

(** ** The outcomes the claims describe *)

(** What a voxel conversion at depth 0.4 adds to [w]: eight planes, the
    [i]-th at [y = -0.2 + 0.05 * i] (so within [-0.2, 0.2), the top end
    not reached), each with a material of its own, created for it, that
    shows the sprite loaded from [p]. *)
Definition eight_layers (p : string) (w w' : World) : Prop :=
  exists planes img size,
    objects w' = objects w ++ planes
    /\ length planes = 8%nat
    /\ images w' !! img = Some (mkImage p size)
    /\ forall (i : nat) (o : Object),
         planes !! i = Some o ->
         o_prim o = Plane
         /\ (y_of o == -0.2 + 0.05 * inject_Z (Z.of_nat i))%Q
         /\ (-0.2 <= y_of o)%Q /\ (y_of o < 0.2)%Q
         /\ o_materials o = [(length (materials w) + i)%nat]
         /\ exists m,
              materials w' !! (length (materials w) + i)%nat = Some m
              /\ m_blend_method m = "BLEND"
              /\ binds m img "Color" "Base Color" = true.

(** [w'] has eight materials more than [w], all satisfying [P] for one
    and the same image. *)
Definition eight_new_materials (P : nat -> Material -> Prop) (w w' : World)
    : Prop :=
  exists img ms,
    materials w' = materials w ++ ms /\ length ms = 8%nat /\ Forall (P img) ms.

(** The texture's colour drives the base colour, nothing drives the alpha
    input, and the material is in blend mode. *)
Definition color_only (img : nat) (m : Material) : Prop :=
  binds m img "Color" "Base Color" = true
  /\ fed m "Alpha" = false
  /\ m_blend_method m = "BLEND".

(** The texture's colour drives the base colour and its alpha the alpha
    input, and the material is in blend mode. *)
Definition color_and_alpha (img : nat) (m : Material) : Prop :=
  binds m img "Color" "Base Color" = true
  /\ binds m img "Alpha" "Alpha" = true
  /\ m_blend_method m = "BLEND".

(** What an extrude conversion leaves: the scene is [before] plus exactly
    one cube [o] of the given [scale], UV-unwrapped with the angle-based
    method and margin 0.001; exactly one material [m] is new, it is [o]'s
    only material, it is in blend mode, and both its base colour and its
    alpha are driven by the sprite image loaded from [p]. *)
Definition one_textured_box (p : string) (size : Z * Z) (scale : vec3)
    (before : list Object) (w w' : World) : Prop :=
  exists o m img,
    objects w' = before ++ [o]
    /\ o_prim o = Cube
    /\ veq (o_scale o) scale
    /\ o_unwrap o = Some ("ANGLE_BASED", 0.001%Q)
    /\ materials w' = materials w ++ [m]
    /\ o_materials o = [length (materials w)]
    /\ m_blend_method m = "BLEND"
    /\ images w' !! img = Some (mkImage p size)
    /\ binds m img "Color" "Base Color" = true
    /\ binds m img "Alpha" "Alpha" = true.

(** Plane [o] with material [m]: scaled and placed as given, in blend
    mode, base colour and alpha driven by image [img]. *)
Definition textured_plane (img : nat) (scale location : vec3)
    (o : Object) (m : Material) : Prop :=
  o_prim o = Plane
  /\ veq (o_scale o) scale
  /\ veq (o_location o) location
  /\ m_blend_method m = "BLEND"
  /\ binds m img "Color" "Base Color" = true
  /\ binds m img "Alpha" "Alpha" = true.

(** What a billboard-depth conversion with the given [depth] adds to [w]:
    exactly two planes, each with one new material of its own. The front
    one is the textured billboard at the origin, scaled (aspect, 1, 1); the
    back one sits at [y = -depth], is scaled (aspect * 1.05, 1.05, 1), and
    its material has no texture: base colour set to black, alpha set to
    0.3, blend mode. *)
Definition billboard_with_shadow (p : string) (size : Z * Z) (aspect depth : Q)
    (w w' : World) : Prop :=
  exists front back fm bm img,
    objects w' = objects w ++ [front; back]
    /\ materials w' = materials w ++ [fm; bm]
    /\ images w' !! img = Some (mkImage p size)
    /\ o_materials front = [length (materials w)]
    /\ o_materials back = [S (length (materials w))]
    /\ textured_plane img (aspect, 1, 1)%Q (0, 0, 0)%Q front fm
    /\ o_prim back = Plane
    /\ veq (o_scale back) (aspect * 1.05, 1.05, 1)%Q
    /\ veq (o_location back) (0, - depth, 0)%Q
    /\ m_blend_method bm = "BLEND"
    /\ bsdf_default bm "Base Color" = Some (VColor 0 0 0 1)
    /\ bsdf_default bm "Alpha" = Some (VFloat 0.3)
    /\ fed bm "Base Color" = false
    /\ fed bm "Alpha" = false.

(** What a capsule conversion adds to [w]: a UV sphere created with scale
    (aspect * 0.6, 0.6, 1) at height 0.5 above the origin, whose material
    takes both base colour and emission colour from the sprite image, with
    emission strength 0.5; and a textured plane in front of it ([y = 0.1])
    with a material of its own. *)
Definition capsule_with_billboard (p : string) (size : Z * Z) (aspect : Q)
    (w w' : World) : Prop :=
  exists body billboard bm pm img add_scale,
    objects w' = objects w ++ [body; billboard]
    /\ materials w' = materials w ++ [bm; pm]
    /\ images w' !! img = Some (mkImage p size)
    /\ o_materials body = [length (materials w)]
    /\ o_materials billboard = [S (length (materials w))]
    /\ o_prim body = UVSphere
    /\ o_add_scale body = Some add_scale
    /\ veq add_scale (aspect * 0.6, 0.6, 1)%Q
    /\ veq (o_location body) (0, 0, 0.5)%Q
    /\ (0 < z_of body)%Q
    /\ binds bm img "Color" "Base Color" = true
    /\ binds bm img "Color" "Emission Color" = true
    /\ bsdf_default bm "Emission Strength" = Some (VFloat 0.5)
    /\ textured_plane img (aspect, 1, 1)%Q (0, 0.1, 0.5)%Q billboard pm.



(** ** Further worlds and readings *)

(** Whether a file is one the image loader reads. *)
Definition is_image (n : node) : bool :=
  match n with ImageFile _ _ => true | _ => false end.

(** A session with an image whose height reads as zero. *)
Definition flat_sprite : World :=
  session (<["flat.png" := ImageFile 16 0]> ∅).

(** A session with an FBX file that the importer turns into one cube. *)
Definition fbx_cube : Object :=
  mkObject "Model" Cube 2 (0, 0, 0)%Q None (1, 1, 1)%Q [] None.

Definition fbx_session : World :=
  mkWorld (<["model.fbx" := Unreadable]> ∅)
    (mkHost true (fun _ => true)
       (fun p => if String.eqb p "model.fbx" then Some [fbx_cube] else None)
       (fun _ => 0%Z))
    [] [] [mkMaterial "Old" false [] [] "OPAQUE"] [fbx_cube] None "OBJECT" [] [].

(** What a voxel conversion of any depth adds to the scene [before]: eight
    planes named SpriteLayer_0 .. SpriteLayer_7, created with the scale
    keyword (aspect, 1, 1); plane [k] sits at [y = -depth/2 + k * depth/8],
    and each plane is [depth/8] further along y than the one before it. *)
Definition layer_stack (aspect depth : Q) (before : list Object) (w' : World)
    : Prop :=
  exists planes,
    objects w' = before ++ planes
    /\ length planes = 8%nat
    /\ (forall (k : nat) (o : Object),
          planes !! k = Some o ->
          o_prim o = Plane
          /\ o_name o = "SpriteLayer_" +:+ str_of_int (Z.of_nat k)
          /\ o_add_scale o = Some (aspect, 1.0, 1.0)%Q
          /\ (y_of o == - (depth / 2) + inject_Z (Z.of_nat k) * (depth / 8))%Q)
    /\ (forall (k : nat) (o o' : Object),
          planes !! k = Some o -> planes !! S k = Some o' ->
          (y_of o' - y_of o == depth / 8)%Q).

(** * Proofs *)

(** ** The helpers on concrete inputs *)

Example dirname_nested : dirname "public/assets/models/out.glb" = "public/assets/models".
Proof. reflexivity. Qed.

Example dirname_root : dirname "/out.glb" = "/".
Proof. reflexivity. Qed.

Example dirname_double_slash : dirname "models//out.glb" = "models".
Proof. reflexivity. Qed.

Example dirname_bare_name : dirname "out.glb" = "".
Proof. reflexivity. Qed.

Example basename_nested : basename "public/assets/sprite.png" = "sprite.png".
Proof. reflexivity. Qed.

Example decimal_float_half : decimal_float "0.5" = Some 0.5%Q.
Proof. reflexivity. Qed.

Example decimal_float_negative : decimal_float "-2" = Some (-2)%Q.
Proof. reflexivity. Qed.

Example decimal_float_word : decimal_float "voxel" = None.
Proof. reflexivity. Qed.

Example layer_name_3 : "SpriteLayer_" +:+ str_of_int 3 = "SpriteLayer_3".
Proof. reflexivity. Qed.

Example makedirs_empty_name :
  (os_makedirs "" wide_sprite).1 = Raise FileNotFoundError.
Proof. reflexivity. Qed.

(** ** Symbolic execution *)

Lemma lookup_snoc {A} (l : list A) (x : A) : (l ++ [x]) !! length l = Some x.
Proof. by apply list_lookup_middle. Qed.

Lemma alter_snoc {A} (f : A -> A) (l : list A) (x : A) :
  alter f (length l) (l ++ [x]) = l ++ [f x].
Proof.
  replace (length l) with (length l + 0)%nat at 1 by lia.
  by rewrite alter_app_r.
Qed.

(** Unfold the operations of the model on a world given by its fields. *)
Ltac unfold_ops :=
  cbv beta iota zeta delta
    [bind ret raise print sys_exit os_path_exists images_load image_size
     textures_new texture_set_image primitive_add primitive_cube_add
     primitive_plane_add primitive_uv_sphere_add active_object alter_object
     set_scale set_name materials_append mode_set uv_unwrap materials_new
     alter_material set_use_nodes nodes_get nodes_new_tex_image alter_node
     node_set_image set_default_value links_new set_blend_method
     select_all_and_delete deselect_all report truediv
     try_except_Exception try_except_all try_except_TypeError
     export_scene_gltf os_makedirs is_Exception
     set_fs set_images set_textures set_materials set_objects set_active
     set_mode set_stdout set_reports
     fs host images textures materials objects active mode stdout reports
     default_nodes default_links find_node option_map
     String.eqb Ascii.eqb Bool.eqb andb negb
     o_name o_prim o_size o_location o_add_scale o_scale o_materials o_unwrap
     m_nodes m_name m_links m_use_nodes m_blend_method
     n_name n_type n_image n_defaults t_name t_type t_image i_size i_filepath
     filepath fst snd].

Ltac use_hyps :=
  repeat match goal with
         | H : ?l = _ |- context [?l] => rewrite H
         end.

Ltac run :=
  repeat (unfold_ops; use_hyps; rewrite ?lookup_snoc, ?alter_snoc;
          cbn [length app Z.eqb Pos.eqb alter list_alter]).

(** Split on what the host's exporter does. *)
Ltac host_cases :=
  repeat match goal with
         | |- context [gltf_accepts_colors ?h] => destruct (gltf_accepts_colors h)
         | |- context [gltf_can_write ?h ?p] => destruct (gltf_can_write h p)
         end.

(** ** The stack of layers *)

Section Layers.
Variables (alpha : bool) (img : nat) (scale_x depth : Q) (layers : Z).

Local Abbreviation add := (add_layer alpha img scale_x depth layers).

Lemma objects_add_layers turns : forall w,
  objects (fold_left add turns w)
  = objects w ++ layer_planes scale_x depth layers (length (materials w)) turns.
Proof.
  induction turns as [|i rest IH]; intros w; cbn [fold_left layer_planes].
  - by rewrite app_nil_r.
  - rewrite IH. destruct w; cbn. rewrite length_app, <- app_assoc. cbn.
    by rewrite Nat.add_1_r.
Qed.

Lemma materials_add_layers turns : forall w,
  materials (fold_left add turns w)
  = materials w ++ map (layer_material alpha img) turns.
Proof.
  induction turns as [|i rest IH]; intros w; cbn [fold_left map].
  - by rewrite app_nil_r.
  - rewrite IH. destruct w; cbn. by rewrite <- app_assoc.
Qed.

Lemma frame_add_layers turns : forall w,
  let w' := fold_left add turns w in
  fs w' = fs w /\ host w' = host w /\ images w' = images w
  /\ textures w' = textures w /\ mode w' = mode w
  /\ stdout w' = stdout w /\ reports w' = reports w.
Proof.
  induction turns as [|i rest IH]; intros w; cbn [fold_left]; [done|].
  destruct (IH (add w i)) as (-> & -> & -> & -> & -> & -> & ->).
  by destruct w.
Qed.

(** A loop whose turns each add one layer adds them all, in order. *)
Lemma for_each_add_layer (body : Z -> M unit) :
  (forall i w, body i w = (Ret tt, add w i)) ->
  forall turns w, for_each turns body w = (Ret tt, fold_left add turns w).
Proof.
  intros Hbody. induction turns as [|i rest IH]; intros w; [done|].
  cbn [for_each fold_left]. unfold bind. by rewrite Hbody, IH.
Qed.

End Layers.

(** After the loop lemma has been used: name the world the loop left,
    replace its fields by what the lemmas above say, and go on. *)
Ltac after_layers :=
  match goal with
  | |- context [fold_left (add_layer ?a ?img ?sx ?d ?n) ?turns ?w0] =>
      let F := fresh "F" in let O := fresh "O" in let Ms := fresh "Ms" in
      pose proof (frame_add_layers a img sx d n turns w0) as F;
      pose proof (objects_add_layers a img sx d n turns w0) as O;
      pose proof (materials_add_layers a img sx d n turns w0) as Ms;
      cbv zeta in F;
      generalize dependent (fold_left (add_layer a img sx d n) turns w0);
      intros [] F O Ms; cbn [fs host images textures materials objects active
                             mode stdout reports] in F, O, Ms;
      destruct F as (-> & -> & -> & -> & -> & -> & ->); subst
  end.

Lemma sprite_voxel_layer_run img scale_x depth layers i w :
  SpriteTo3D.voxel_layer img scale_x depth layers i w
  = (Ret tt, add_layer true img scale_x depth layers w i).
Proof.
  destruct w.
  unfold SpriteTo3D.voxel_layer, add_layer, layer_plane, layer_material.
  run. reflexivity.
Qed.

Lemma quick_voxel_layer_run img scale_x depth layers i w :
  QuickConvert.voxel_layer img scale_x depth layers i w
  = (Ret tt, add_layer false img scale_x depth layers w i).
Proof.
  destruct w.
  unfold QuickConvert.voxel_layer, add_layer, layer_plane, layer_material.
  run. reflexivity.
Qed.

Lemma addon_voxel_layer_run img scale_x depth layers i w :
  Addon.voxel_layer img scale_x depth layers i w
  = (Ret tt, add_layer false img scale_x depth layers w i).
Proof. apply quick_voxel_layer_run. Qed.

(** ** The scenes the voxel branches build *)

Lemma sprite_voxel_scene w p out d wd ht :
  fs w !! p = Some (ImageFile wd ht) -> (ht =? 0)%Z = false ->
  let w' := (SpriteTo3D.create_3d_from_sprite p out d "voxel" w).2 in
  objects w' = objects w
               ++ layer_planes (inject_Z wd / inject_Z ht) d 8
                    (length (materials w)) (range 8)
  /\ materials w' = materials w
                    ++ map (layer_material true (length (images w))) (range 8)
  /\ images w' = images w ++ [mkImage p (wd, ht)].
Proof.
  destruct w; cbn [fs objects materials images]; intros Hp Hht.
  unfold SpriteTo3D.create_3d_from_sprite, SpriteTo3D.voxel_branch,
    SpriteTo3D.export_glb.
  run.
  rewrite (for_each_add_layer true _ _ _ _ _ (sprite_voxel_layer_run _ _ _ _)).
  after_layers.
  run. host_cases; run; cbn [snd objects materials images]; done.
Qed.

Lemma addon_voxel_scene w p d wd ht :
  fs w !! p = Some (ImageFile wd ht) -> (ht =? 0)%Z = false ->
  let r := Addon.execute (Addon.mkOperator p d "VOXEL") w in
  r.1 = Ret Addon.FINISHED
  /\ objects r.2 = objects w
                   ++ layer_planes (inject_Z wd / inject_Z ht) d 8
                        (length (materials w)) (range 8)
  /\ materials r.2 = materials w
                     ++ map (layer_material false (length (images w))) (range 8)
  /\ images r.2 = images w ++ [mkImage p (wd, ht)].
Proof.
  destruct w; cbn [fs objects materials images]; intros Hp Hht.
  unfold Addon.execute, Addon.voxel_branch.
  cbn [Addon.self_filepath Addon.self_method Addon.self_depth].
  run.
  rewrite (for_each_add_layer false _ _ _ _ _ (addon_voxel_layer_run _ _ _ _)).
  after_layers.
  run. cbn [fst snd objects materials images]. done.
Qed.

(** ** C1: the eight layers *)

Lemma binds_layer_color alpha img i :
  binds (layer_material alpha img i) img "Color" "Base Color" = true.
Proof.
  unfold binds, layer_material. destruct alpha; cbn.
  all: by rewrite bool_decide_true.
Qed.

(** Where a layer sits: the height of layer [i] of [n] within a stack of
    depth [d] is [-d/2 + i * (d/n)]. *)
Lemma layer_height sx d n mat i :
  (0 < n)%Z ->
  (y_of (layer_plane sx d n mat i) == - (d / 2) + inject_Z i * (d / inject_Z n))%Q.
Proof.
  intros Hn. cbn [layer_plane y_of o_location fst snd].
  assert (~ (inject_Z n == 0)%Q) by (unfold Qeq; cbn; lia).
  field. done.
Qed.

Lemma layer_height_04 sx mat i :
  (0 <= i < 8)%Z ->
  let y := y_of (layer_plane sx 0.4 8 mat i) in
  (y == -0.2 + 0.05 * inject_Z i)%Q /\ (-0.2 <= y)%Q /\ (y < 0.2)%Q.
Proof.
  intros [Hlo Hhi]. cbv zeta.
  assert (E : (y_of (layer_plane sx 0.4 8 mat i) == -0.2 + 0.05 * inject_Z i)%Q).
  { rewrite layer_height by lia. field. }
  assert (0 <= inject_Z i)%Q
    by (change (inject_Z 0 <= inject_Z i)%Q; rewrite <- Zle_Qle; lia).
  assert (inject_Z i <= 7)%Q
    by (change (inject_Z i <= inject_Z 7)%Q; rewrite <- Zle_Qle; lia).
  rewrite E. split; [reflexivity|]. split; lra.
Qed.

Lemma lookup_layer_planes sx d n turns : forall mat (k : nat) o,
  layer_planes sx d n mat turns !! k = Some o ->
  exists i, turns !! k = Some i /\ o = layer_plane sx d n (mat + k) i.
Proof.
  induction turns as [|i rest IH]; intros mat k o; [done|].
  destruct k as [|k]; cbn [layer_planes].
  - intros [= <-]. exists i. by rewrite Nat.add_0_r.
  - intros Hk. destruct (IH (S mat) k o Hk) as (j & Hj & ->).
    exists j. split; [done|]. f_equal. lia.
Qed.

Lemma lookup_range n (k : nat) i :
  range n !! k = Some i -> i = Z.of_nat k /\ (0 <= i < n)%Z.
Proof.
  unfold range. rewrite list_lookup_fmap.
  destruct (seq 0 (Z.to_nat n) !! k) as [j|] eqn:E; [|done].
  apply lookup_seq in E as [-> ?]. intros [= <-]. lia.
Qed.

Lemma eight_layers_intro alpha p size sx w w' :
  objects w' = objects w
               ++ layer_planes sx 0.4 8 (length (materials w)) (range 8) ->
  materials w' = materials w
                 ++ map (layer_material alpha (length (images w))) (range 8) ->
  images w' = images w ++ [mkImage p size] ->
  eight_layers p w w'.
Proof.
  intros Ho Hm Hi.
  exists (layer_planes sx 0.4 8 (length (materials w)) (range 8)),
         (length (images w)), size.
  split; [done|]. split; [done|]. split; [rewrite Hi; apply lookup_snoc|].
  intros k o Hk.
  destruct (lookup_layer_planes _ _ _ _ _ _ _ Hk) as (i & Hi8 & ->).
  destruct (lookup_range _ _ _ Hi8) as [-> Hrange].
  destruct (layer_height_04 sx (length (materials w) + k) _ Hrange)
    as (Hy & Hlo & Hhi).
  split; [done|]. split; [done|]. split; [done|]. split; [done|].
  split; [done|].
  exists (layer_material alpha (length (images w)) (Z.of_nat k)).
  split; [|split; [done | apply binds_layer_color]].
  rewrite Hm, lookup_app_r by lia.
  replace (length (materials w) + k - length (materials w))%nat with k by lia.
  by rewrite list_lookup_fmap, Hi8.
Qed.

(** C1 (amended): for the Voxel method with depth 0.4, the standalone
    script and the addon operator each create exactly eight planes; their
    y-positions are evenly spaced by [depth/8 = 0.05] starting at
    [-depth/2 = -0.2], the [i]-th at [-0.2 + 0.05 * i], so they fill the
    half-open range [-0.2, 0.2) and the last one is at 0.15; each plane gets
    a material of its own, created for it, showing the same sprite image. *)
Theorem voxel_eight_layers (w : World) (p out : string) (wd ht : Z) :
  fs w !! p = Some (ImageFile wd ht) -> ht <> 0%Z ->
  eight_layers p w (SpriteTo3D.create_3d_from_sprite p out 0.4 "voxel" w).2
  /\ eight_layers p w (Addon.execute (Addon.mkOperator p 0.4 "VOXEL") w).2.
Proof.
  intros Hp Hht. apply Z.eqb_neq in Hht. split.
  - destruct (sprite_voxel_scene w p out 0.4 wd ht Hp Hht) as (Ho & Hm & Hi).
    by eapply eight_layers_intro.
  - destruct (addon_voxel_scene w p 0.4 wd ht Hp Hht) as (_ & Ho & Hm & Hi).
    by eapply eight_layers_intro.
Qed.

Lemma voxel_eight_layers_witness :
  eight_layers "sprite.png" wide_sprite
    (SpriteTo3D.create_3d_from_sprite "sprite.png" "out.glb" 0.4 "voxel"
       wide_sprite).2
  /\ eight_layers "sprite.png" wide_sprite
       (Addon.execute (Addon.mkOperator "sprite.png" 0.4 "VOXEL") wide_sprite).2.
Proof.
  apply (voxel_eight_layers wide_sprite "sprite.png" "out.glb" 800 400).
  - reflexivity.
  - lia.
Defined.

(** C1 as stated fails: at depth 0.4 the planes sit at -0.2, -0.15, ...,
    0.15; the step is 0.05 and every plane is strictly below the upper end
    0.2 of the closed interval. *)
Lemma voxel_top_end_not_reached :
  let w' := (SpriteTo3D.create_3d_from_sprite "sprite.png" "out.glb" 0.4
               "voxel" wide_sprite).2 in
  map (fun o => Qred (y_of o)) (objects w')
  = [-(1 # 5); -(3 # 20); -(1 # 10); -(1 # 20); 0; 1 # 20; 1 # 10; 3 # 20]%Q
  /\ Forall (fun o => (y_of o <= 0.15)%Q /\ ~ (y_of o == 0.2)%Q) (objects w').
Proof.
  split; [by vm_compute|].
  cbv zeta. vm_compute (objects _).
  repeat (constructor; [by vm_compute|]). constructor.
Qed.

(** ** C9: which voxel branch links the alpha *)

Lemma quick_voxel_scene w p out d wd ht :
  fs w !! p = Some (ImageFile wd ht) -> (ht =? 0)%Z = false ->
  let w' := (QuickConvert.convert_sprite_to_3d p out d "voxel" w).2 in
  objects w' = layer_planes (inject_Z wd / inject_Z ht) d 8
                 (length (materials w)) (range 8)
  /\ materials w' = materials w
                    ++ map (layer_material false (length (images w))) (range 8)
  /\ images w' = images w ++ [mkImage p (wd, ht)].
Proof.
  destruct w; cbn [fs objects materials images]; intros Hp Hht.
  unfold QuickConvert.convert_sprite_to_3d, QuickConvert.voxel_branch,
    QuickConvert.export_glb.
  run.
  rewrite (for_each_add_layer false _ _ _ _ _ (quick_voxel_layer_run _ _ _ _)).
  after_layers.
  generalize (dirname out); intros dn.
  destruct dn as [|a dn]; [|destruct (fs0 !! String a dn) as [[]|] eqn:E].
  all: run; host_cases; run; cbn [snd objects materials images]; done.
Qed.

Lemma layer_material_color_only img i :
  color_only img (layer_material false img i).
Proof.
  split; [apply binds_layer_color|]. split; reflexivity.
Qed.

Lemma layer_material_color_and_alpha img i :
  color_and_alpha img (layer_material true img i).
Proof.
  split; [apply binds_layer_color|]. split; [|reflexivity].
  unfold binds, layer_material; cbn. by rewrite bool_decide_true.
Qed.

Lemma eight_new_materials_intro (P : nat -> Material -> Prop) alpha w w' :
  (forall img i, P img (layer_material alpha img i)) ->
  materials w' = materials w
                 ++ map (layer_material alpha (length (images w))) (range 8) ->
  eight_new_materials P w w'.
Proof.
  intros HP Hm.
  exists (length (images w)),
         (map (layer_material alpha (length (images w))) (range 8)).
  split; [done|]. split; [done|].
  apply Forall_fmap, Forall_forall. intros i _. apply HP.
Qed.

(** C9: in the Voxel branches of the quick-convert script and of the addon
    operator every per-layer material links only the texture's colour to
    the base colour: nothing is connected to the alpha input, although the
    blend mode is 'BLEND'; the voxel branch of the standalone sprite-to-3d
    script links the alpha as well. *)
Theorem voxel_alpha_link (w : World) (p out : string) (d : Q) (wd ht : Z) :
  fs w !! p = Some (ImageFile wd ht) -> ht <> 0%Z ->
  eight_new_materials color_only w
    (QuickConvert.convert_sprite_to_3d p out d "voxel" w).2
  /\ eight_new_materials color_only w
       (Addon.execute (Addon.mkOperator p d "VOXEL") w).2
  /\ eight_new_materials color_and_alpha w
       (SpriteTo3D.create_3d_from_sprite p out d "voxel" w).2.
Proof.
  intros Hp Hht. apply Z.eqb_neq in Hht. split; [|split].
  - destruct (quick_voxel_scene w p out d wd ht Hp Hht) as (_ & Hm & _).
    eapply eight_new_materials_intro; [apply layer_material_color_only|done].
  - destruct (addon_voxel_scene w p d wd ht Hp Hht) as (_ & _ & Hm & _).
    eapply eight_new_materials_intro; [apply layer_material_color_only|done].
  - destruct (sprite_voxel_scene w p out d wd ht Hp Hht) as (_ & Hm & _).
    eapply eight_new_materials_intro;
      [apply layer_material_color_and_alpha|done].
Qed.

Lemma voxel_alpha_link_witness :
  eight_new_materials color_only wide_sprite
    (QuickConvert.convert_sprite_to_3d "sprite.png" "out/model.glb" 0.5
       "voxel" wide_sprite).2
  /\ eight_new_materials color_only wide_sprite
       (Addon.execute (Addon.mkOperator "sprite.png" 0.5 "VOXEL") wide_sprite).2
  /\ eight_new_materials color_and_alpha wide_sprite
       (SpriteTo3D.create_3d_from_sprite "sprite.png" "out/model.glb" 0.5
          "voxel" wide_sprite).2.
Proof.
  apply (voxel_alpha_link wide_sprite "sprite.png" "out/model.glb" 0.5 800 400).
  - reflexivity.
  - lia.
Defined.

(** ** C5: the extruded box *)

(** Close a goal [one_textured_box ...] on a world given by its fields. *)
Ltac box_done Hs :=
  cbn [snd]; unfold one_textured_box; cbn [objects materials images];
  do 3 eexists; split; [reflexivity|];
  cbn [o_prim o_scale o_materials o_unwrap m_blend_method];
  split; [reflexivity|]; split; [exact Hs|]; split; [reflexivity|];
  split; [reflexivity|]; split; [reflexivity|]; split; [reflexivity|];
  split; [apply lookup_snoc|];
  split; unfold binds; cbn; by rewrite bool_decide_true.

Lemma sprite_extrude_scene w p out d wd ht scale :
  fs w !! p = Some (ImageFile wd ht) -> (ht =? 0)%Z = false ->
  veq (inject_Z wd / inject_Z ht, 1.0, d)%Q scale ->
  one_textured_box p (wd, ht) scale (objects w) w
    (SpriteTo3D.create_3d_from_sprite p out d "extrude" w).2.
Proof.
  destruct w; cbn [fs objects]; intros Hp Hht Hs.
  unfold SpriteTo3D.create_3d_from_sprite, SpriteTo3D.extrude_branch,
    SpriteTo3D.export_glb.
  run. host_cases; run; box_done Hs.
Qed.

Lemma quick_extrude_scene w p out d wd ht scale :
  fs w !! p = Some (ImageFile wd ht) -> (ht =? 0)%Z = false ->
  veq (inject_Z wd / inject_Z ht, 1.0, d)%Q scale ->
  one_textured_box p (wd, ht) scale [] w
    (QuickConvert.convert_sprite_to_3d p out d "extrude" w).2.
Proof.
  destruct w; cbn [fs]; intros Hp Hht Hs.
  unfold QuickConvert.convert_sprite_to_3d, QuickConvert.extrude_branch,
    QuickConvert.export_glb.
  generalize (dirname out); intros dn.
  destruct dn as [|a dn]; [|destruct (fs0 !! String a dn) as [[]|] eqn:E].
  all: run; host_cases; run; box_done Hs.
Qed.


(** C5: for every sprite of 800x400 pixels (aspect 2.0), method Extrude and
    depth 0.5, the conversion creates exactly one cuboid with scale
    (2.0, 1.0, 0.5) and a single alpha-blended material whose base colour
    and alpha are bound to the sprite texture, UV-unwrapped with the
    angle-based method and margin 0.001. Stated for the standalone script
    (which adds to the scene it finds) and the quick-convert function
    (which clears the scene first). *)
Theorem extrude_800x400 (w : World) (p out : string) :
  fs w !! p = Some (ImageFile 800 400) ->
  one_textured_box p (800, 400)%Z (2.0, 1.0, 0.5)%Q (objects w) w
    (SpriteTo3D.create_3d_from_sprite p out 0.5 "extrude" w).2
  /\ one_textured_box p (800, 400)%Z (2.0, 1.0, 0.5)%Q [] w
       (QuickConvert.convert_sprite_to_3d p out 0.5 "extrude" w).2.
Proof.
  intros Hp. split.
  - by apply sprite_extrude_scene.
  - by apply quick_extrude_scene.
Qed.

Lemma extrude_800x400_witness :
  one_textured_box "sprite.png" (800, 400)%Z (2.0, 1.0, 0.5)%Q [] wide_sprite
    (SpriteTo3D.create_3d_from_sprite "sprite.png" "model.glb" 0.5 "extrude"
       wide_sprite).2
  /\ one_textured_box "sprite.png" (800, 400)%Z (2.0, 1.0, 0.5)%Q [] wide_sprite
       (QuickConvert.convert_sprite_to_3d "sprite.png" "model.glb" 0.5
          "extrude" wide_sprite).2.
Proof.
  apply (extrude_800x400 wide_sprite "sprite.png" "model.glb").
  reflexivity.
Defined.

(** ** C4 and C6: the character conversions *)

Ltac binds_done := unfold binds; cbn; by rewrite bool_decide_true.

(** Two elements appended one after the other are a two-element suffix. *)
Ltac snoc_norm :=
  rewrite <- ?app_assoc, ?length_app; cbn [app length];
  rewrite ?Nat.add_1_r.

Lemma character_billboard_depth_scene w p out depth wd ht :
  fs w !! p = Some (ImageFile wd ht) -> (ht =? 0)%Z = false ->
  billboard_with_shadow p (wd, ht) (inject_Z wd / inject_Z ht) depth w
    (CharacterTo3D.create_billboard_character p out "billboard-depth" depth w).2.
Proof.
  destruct w; cbn [fs]; intros Hp Hht.
  unfold CharacterTo3D.create_billboard_character,
    CharacterTo3D.load_sprite_image, CharacterTo3D.billboard_depth_branch,
    CharacterTo3D.export_glb.
  run. host_cases; run; cbn [snd].
  all: unfold billboard_with_shadow, textured_plane;
    cbn [objects materials images]; snoc_norm.
  all: do 5 eexists; split; [reflexivity|]; split; [reflexivity|].
  all: cbn [o_prim o_scale o_location o_materials m_blend_method].
  all: split; [apply lookup_snoc|].
  all: split; [reflexivity|]; split; [reflexivity|].
  all: split;
    [ split; [reflexivity|]; split; [by cbn|]; split; [done|];
      split; [reflexivity|]; split; binds_done |].
  all: split; [reflexivity|]; split; [by cbn|]; split; [by cbn|].
  all: repeat split; reflexivity.
Qed.

Lemma character_capsule_scene w p out depth wd ht :
  fs w !! p = Some (ImageFile wd ht) -> (ht =? 0)%Z = false ->
  capsule_with_billboard p (wd, ht) (inject_Z wd / inject_Z ht) w
    (CharacterTo3D.create_billboard_character p out "capsule" depth w).2.
Proof.
  destruct w; cbn [fs]; intros Hp Hht.
  unfold CharacterTo3D.create_billboard_character,
    CharacterTo3D.load_sprite_image, CharacterTo3D.capsule_branch,
    CharacterTo3D.export_glb.
  run. host_cases; run; cbn [snd].
  all: unfold capsule_with_billboard, textured_plane;
    cbn [objects materials images]; snoc_norm.
  all: do 6 eexists; split; [reflexivity|]; split; [reflexivity|].
  all: cbn [o_prim o_scale o_add_scale o_location o_materials m_blend_method
            z_of snd].
  all: split; [apply lookup_snoc|].
  all: split; [reflexivity|]; split; [reflexivity|]; split; [reflexivity|].
  all: split; [reflexivity|]; split; [by cbn|]; split; [by cbn|].
  all: split; [reflexivity|].
  all: split; [binds_done|]; split; [binds_done|]; split; [reflexivity|].
  all: split; [reflexivity|]; split; [by cbn|]; split; [by cbn|].
  all: split; [reflexivity|]; split; binds_done.
Qed.

(** C4: for the BillboardWithDepth method with depth 0.1 the conversion
    creates exactly two primitives: a front textured alpha-blended plane
    scaled (aspect, 1, 1) at the origin, and a back plane scaled by 1.05 in
    x and y with a flat black material of alpha 0.3, at y = -0.1. *)
Theorem billboard_depth_01 (w : World) (p out : string) (wd ht : Z) :
  fs w !! p = Some (ImageFile wd ht) -> ht <> 0%Z ->
  let w' := (CharacterTo3D.create_billboard_character p out "billboard-depth"
               0.1 w).2 in
  billboard_with_shadow p (wd, ht) (inject_Z wd / inject_Z ht) 0.1 w w'
  /\ exists back, last (objects w') = Some back /\ (y_of back == -0.1)%Q.
Proof.
  intros Hp Hht. apply Z.eqb_neq in Hht.
  pose proof (character_billboard_depth_scene w p out 0.1 wd ht Hp Hht) as H.
  split; [exact H|].
  destruct H as (front & back & fm & bm & img & -> & _ & _ & _ & _ & _ & _
                 & _ & Hloc & _).
  exists back. split.
  - by rewrite last_app.
  - unfold y_of. destruct (o_location back) as [[x y] z].
    destruct Hloc as (_ & -> & _). reflexivity.
Qed.

Lemma billboard_depth_01_witness :
  let w' := (CharacterTo3D.create_billboard_character "sprite.png" "out.glb"
               "billboard-depth" 0.1 wide_sprite).2 in
  billboard_with_shadow "sprite.png" (800, 400)%Z (inject_Z 800 / inject_Z 400)
    0.1 wide_sprite w'
  /\ exists back, last (objects w') = Some back /\ (y_of back == -0.1)%Q.
Proof.
  apply (billboard_depth_01 wide_sprite "sprite.png" "out.glb" 800 400).
  - reflexivity.
  - lia.
Defined.

(** C6: for the Capsule method the conversion creates a rounded body (a UV
    sphere) created with scale (aspect * 0.6, 0.6, 1) and placed 0.5 above
    the origin, whose material binds the sprite texture to both base colour
    and emission colour with emission strength 0.5, plus a separate
    billboard plane in front with its own alpha-blended textured
    material. *)
Theorem capsule_character (w : World) (p out : string) (depth : Q) (wd ht : Z) :
  fs w !! p = Some (ImageFile wd ht) -> ht <> 0%Z ->
  capsule_with_billboard p (wd, ht) (inject_Z wd / inject_Z ht) w
    (CharacterTo3D.create_billboard_character p out "capsule" depth w).2.
Proof.
  intros Hp Hht. apply Z.eqb_neq in Hht.
  by apply character_capsule_scene.
Qed.

Lemma capsule_character_witness :
  capsule_with_billboard "sprite.png" (800, 400)%Z (inject_Z 800 / inject_Z 400)
    wide_sprite
    (CharacterTo3D.create_billboard_character "sprite.png" "out.glb" "capsule"
       0.1 wide_sprite).2.
Proof.
  apply (capsule_character wide_sprite "sprite.png" "out.glb" 0.1 800 400).
  - reflexivity.
  - lia.
Defined.

(** ** C7: a sprite path that does not exist *)

(** C7: a conversion invoked on a sprite path that does not exist fails
    with the not-found error of its entry point: the three conversion
    functions print the message naming the path and return False, the
    operator reports it and returns CANCELLED. Nothing else changes except
    that the quick-convert function has already cleared the scene; in
    particular the file system is as before, so no output file is
    produced. *)
Theorem missing_sprite (w : World) (p out method : string) (depth : Q) :
  fs w !! p = None ->
  SpriteTo3D.create_3d_from_sprite p out depth method w
  = (Ret false,
     set_stdout (fun l => l ++ [[Str "Loading sprite: "; Str p];
                                [Str "Error: Image not found: "; Str p]]) w)
  /\ CharacterTo3D.create_billboard_character p out method depth w
     = (Ret false,
        set_stdout (fun l => l ++ [[Str "Loading character sprite: "; Str p];
                                   [Str "Error: Image not found: "; Str p]]) w)
  /\ QuickConvert.convert_sprite_to_3d p out depth method w
     = (Ret false,
        set_stdout (fun l => l ++ [[Str "ERROR: File not found: "; Str p]])
          (set_active None (set_objects (fun _ => []) w)))
  /\ Addon.execute (Addon.mkOperator p depth method) w
     = (Ret Addon.CANCELLED,
        set_reports (fun l => l ++ [("ERROR", [Str "File not found: "; Str p])]) w)
  /\ fs (SpriteTo3D.create_3d_from_sprite p out depth method w).2 = fs w
  /\ fs (CharacterTo3D.create_billboard_character p out method depth w).2 = fs w
  /\ fs (QuickConvert.convert_sprite_to_3d p out depth method w).2 = fs w
  /\ fs (Addon.execute (Addon.mkOperator p depth method) w).2 = fs w.
Proof.
  destruct w; cbn [fs]; intros Hp.
  assert (E1 : SpriteTo3D.create_3d_from_sprite p out depth method
                 (mkWorld fs0 host0 images0 textures0 materials0 objects0
                    active0 mode0 stdout0 reports0) = _)
    by (unfold SpriteTo3D.create_3d_from_sprite; run;
        rewrite <- app_assoc; reflexivity).
  assert (E2 : CharacterTo3D.create_billboard_character p out method depth
                 (mkWorld fs0 host0 images0 textures0 materials0 objects0
                    active0 mode0 stdout0 reports0) = _)
    by (unfold CharacterTo3D.create_billboard_character,
          CharacterTo3D.load_sprite_image; run;
        rewrite <- app_assoc; reflexivity).
  assert (E3 : QuickConvert.convert_sprite_to_3d p out depth method
                 (mkWorld fs0 host0 images0 textures0 materials0 objects0
                    active0 mode0 stdout0 reports0) = _)
    by (unfold QuickConvert.convert_sprite_to_3d; run; reflexivity).
  assert (E4 : Addon.execute (Addon.mkOperator p depth method)
                 (mkWorld fs0 host0 images0 textures0 materials0 objects0
                    active0 mode0 stdout0 reports0) = _)
    by (unfold Addon.execute; cbn [Addon.self_filepath]; run; reflexivity).
  rewrite E1, E2, E3, E4. cbn. done.
Qed.

Lemma missing_sprite_witness :
  let w := wide_sprite in
  let p := "missing.png" in
  let out := "out.glb" in
  SpriteTo3D.create_3d_from_sprite p out 0.5 "extrude" w
  = (Ret false,
     set_stdout (fun l => l ++ [[Str "Loading sprite: "; Str p];
                                [Str "Error: Image not found: "; Str p]]) w)
  /\ CharacterTo3D.create_billboard_character p out "extrude" 0.5 w
     = (Ret false,
        set_stdout (fun l => l ++ [[Str "Loading character sprite: "; Str p];
                                   [Str "Error: Image not found: "; Str p]]) w)
  /\ QuickConvert.convert_sprite_to_3d p out 0.5 "extrude" w
     = (Ret false,
        set_stdout (fun l => l ++ [[Str "ERROR: File not found: "; Str p]])
          (set_active None (set_objects (fun _ => []) w)))
  /\ Addon.execute (Addon.mkOperator p 0.5 "extrude") w
     = (Ret Addon.CANCELLED,
        set_reports (fun l => l ++ [("ERROR", [Str "File not found: "; Str p])]) w)
  /\ fs (SpriteTo3D.create_3d_from_sprite p out 0.5 "extrude" w).2 = fs w
  /\ fs (CharacterTo3D.create_billboard_character p out "extrude" 0.5 w).2 = fs w
  /\ fs (QuickConvert.convert_sprite_to_3d p out 0.5 "extrude" w).2 = fs w
  /\ fs (Addon.execute (Addon.mkOperator p 0.5 "extrude") w).2 = fs w.
Proof.
  apply (missing_sprite wide_sprite "missing.png" "out.glb" "extrude" 0.5).
  reflexivity.
Defined.

(** ** C2: a method that is not one of the handled ones *)




(** ** C10: quick-convert and an output path without a directory *)

(** A path without a slash has the empty [dirname]. *)
Lemma rfind_slash_none p :
  (forall c, In c (list_ascii_of_string p) -> c <> "/"%char) ->
  rfind_slash p = None.
Proof.
  induction p as [|c rest IH]; intros H; [done|].
  cbn [rfind_slash]. rewrite IH.
  - destruct (Ascii.eqb_spec c "/"); [|done].
    exfalso. apply (H c); [by left|done].
  - intros c' Hc'. apply H. by right.
Qed.

Lemma dirname_bare p :
  (forall c, In c (list_ascii_of_string p) -> c <> "/"%char) ->
  dirname p = "".
Proof. intros H. unfold dirname. by rewrite rfind_slash_none. Qed.

(** C10: when the output path has no directory component, the
    quick-convert function never reaches the exporter: the file system is
    left as it was and the function does not return True; and whenever the
    sprite has been loaded, so that the scene has been built (one box for
    'extrude', eight planes for 'voxel'), the call ends in the uncaught
    FileNotFoundError of [os.makedirs('')]. *)
Theorem quick_convert_bare_output (w : World) (p out method : string) (depth : Q) :
  dirname out = "" ->
  let r := QuickConvert.convert_sprite_to_3d p out depth method w in
  fs r.2 = fs w
  /\ r.1 <> Ret true
  /\ forall wd ht,
       fs w !! p = Some (ImageFile wd ht) -> ht <> 0%Z ->
       r.1 = Raise FileNotFoundError
       /\ (method = "extrude" -> length (objects r.2) = 1%nat)
       /\ (method = "voxel" -> length (objects r.2) = 8%nat).
Proof.
  destruct w; cbn [fs]; intros Hd.
  unfold QuickConvert.convert_sprite_to_3d, QuickConvert.export_glb,
    QuickConvert.extrude_branch, QuickConvert.voxel_branch.
  rewrite Hd.
  destruct (fs0 !! p) as [[| wd ht | |]|] eqn:Hp.
  2: destruct (ht =? 0)%Z eqn:Hht.
  2, 3: destruct (String.eqb method "extrude") eqn:He;
    [|destruct (String.eqb method "voxel") eqn:Hv].
  all: run.
  all: try (rewrite (for_each_add_layer false _ _ _ _ _
                       (quick_voxel_layer_run _ _ _ _)); after_layers; run).
  all: cbn [fst snd fs objects].
  all: split; [reflexivity|]; split; [discriminate|].
  all: intros wd' ht' [= <- <-] Hne; try (apply Z.eqb_neq in Hne; congruence).
  all: split; [reflexivity|].
  all: repeat match goal with
              | H : String.eqb _ _ = true |- _ => apply String.eqb_eq in H
              | H : String.eqb _ _ = false |- _ => apply String.eqb_neq in H
              end.
  all: split; intros E; subst; try reflexivity; try discriminate; congruence.
Qed.

Lemma quick_convert_bare_output_witness :
  let r := QuickConvert.convert_sprite_to_3d "sprite.png" "model.glb" 0.5
             "extrude" wide_sprite in
  dirname "model.glb" = ""
  /\ fs r.2 = fs wide_sprite
  /\ r.1 = Raise FileNotFoundError
  /\ length (objects r.2) = 1%nat.
Proof.
  destruct (quick_convert_bare_output wide_sprite "sprite.png" "model.glb"
              "extrude" 0.5 eq_refl) as (Hfs & _ & H).
  destruct (H 800%Z 400%Z eq_refl ltac:(lia)) as (Hr & Hbox & _).
  split; [reflexivity|]. split; [exact Hfs|]. split; [exact Hr|].
  exact (Hbox eq_refl).
Defined.

(** ** C8: the range of depth *)





(** ** C3: the command lines *)

Lemma list_index_app x pre rest :
  x ∉ pre -> list_index x (pre ++ x :: rest) = Some (length pre).
Proof.
  induction pre as [|y pre IH]; intros Hx; cbn [app list_index length].
  - by rewrite String.eqb_refl.
  - apply not_elem_of_cons in Hx as [Hne Hx].
    apply not_eq_sym, String.eqb_neq in Hne. by rewrite Hne, IH.
Qed.

(** The arguments after the first ["--"]. *)
Lemma arguments_after_dashes pre args :
  "--" ∉ pre ->
  list_index "--" (pre ++ "--" :: args) = Some (length pre)
  /\ drop (length pre + 1) (pre ++ "--" :: args) = args.
Proof.
  intros Hpre. split; [by apply list_index_app|].
  by rewrite drop_app_add.
Qed.




(** Failures that end in no exit code: when the exporter fails, or when
    the character script meets an image the loader rejects, the exception
    is not caught and no [sys.exit] is reached; the sprite script catches
    the loader's exception and exits with code 1. *)
Example uncaught_failures :
  let blender := ["blender"; "--background"; "--python"; "script.py"; "--"] in
  (SpriteTo3D.script decimal_float (blender ++ ["sprite.png"; "out.glb"])
     read_only_session).1 = Raise RuntimeError
  /\ (CharacterTo3D.script decimal_float (blender ++ ["sprite.png"; "out.glb"])
        read_only_session).1 = Raise RuntimeError
  /\ (CharacterTo3D.script decimal_float (blender ++ ["broken.png"; "out.glb"])
        read_only_session).1 = Raise RuntimeError
  /\ (SpriteTo3D.script decimal_float (blender ++ ["broken.png"; "out.glb"])
        read_only_session).1 = Raise (SystemExit 1).
Proof. by vm_compute. Qed.



(** * Further properties of the scripts *)

(** ** The export and its fallback *)

(** X1: the export step of a conversion does not depend on whether the
    exporter knows the [export_colors] keyword: the TypeError of the first
    call is caught and the second call does the work. Where the host can
    write, the file holds the scene and its materials; where it cannot, a
    RuntimeError escapes and the file system is left alone. *)
Theorem export_fallback_hides_colors (w : World) (out : string) :
  let exported :=
    set_fs (fun m => <[out := GlbFile (objects w) (materials w)]> m)
      (set_stdout (fun l => l ++ [[Str "Exporting to: "; Str out]]) w) in
  let failed := set_stdout (fun l => l ++ [[Str "Exporting to: "; Str out]]) w in
  SpriteTo3D.export_glb out w
  = (if gltf_can_write (host w) out then (Ret tt, exported)
     else (Raise RuntimeError, failed))
  /\ CharacterTo3D.export_glb out w
     = (if gltf_can_write (host w) out then (Ret tt, exported)
        else (Raise RuntimeError, failed)).
Proof.
  destruct w; cbn [host objects materials].
  unfold SpriteTo3D.export_glb, CharacterTo3D.export_glb.
  split; run; host_cases; run; reflexivity.
Qed.

(** ** Sprites that cannot be used *)

(** X2: a sprite path that exists but is not a readable image. The sprite
    script, quick-convert and the operator catch the loader's exception,
    print or report it and return False (CANCELLED), building nothing; the
    character script does not catch it: the RuntimeError escapes from
    [load_sprite_image]. *)
Theorem unreadable_sprite (w : World) (p out method : string) (depth : Q)
    (n : node) :
  fs w !! p = Some n -> is_image n = false ->
  SpriteTo3D.create_3d_from_sprite p out depth method w
  = (Ret false,
     set_stdout (fun l => l ++ [[Str "Loading sprite: "; Str p];
                                [Str "Error loading image: "; Exc RuntimeError]]) w)
  /\ QuickConvert.convert_sprite_to_3d p out depth method w
     = (Ret false,
        set_stdout (fun l => l ++ [[Str "ERROR: Failed to load image: ";
                                    Exc RuntimeError]])
          (set_active None (set_objects (fun _ => []) w)))
  /\ Addon.execute (Addon.mkOperator p depth method) w
     = (Ret Addon.CANCELLED,
        set_reports (fun l => l ++ [("ERROR", [Str "Failed to load image: ";
                                               Str p])]) w)
  /\ CharacterTo3D.create_billboard_character p out method depth w
     = (Raise RuntimeError,
        set_stdout (fun l => l ++ [[Str "Loading character sprite: "; Str p]]) w).
Proof.
  destruct w; cbn [fs]; intros Hp Hn.
  unfold SpriteTo3D.create_3d_from_sprite, QuickConvert.convert_sprite_to_3d,
    Addon.execute, CharacterTo3D.create_billboard_character,
    CharacterTo3D.load_sprite_image.
  cbn [Addon.self_filepath].
  destruct n; try discriminate.
  all: repeat split; run; rewrite <- ?app_assoc; reflexivity.
Qed.

Lemma unreadable_sprite_witness :
  let w := read_only_session in
  let p := "broken.png" in
  SpriteTo3D.create_3d_from_sprite p "out.glb" 0.5 "extrude" w
  = (Ret false,
     set_stdout (fun l => l ++ [[Str "Loading sprite: "; Str p];
                                [Str "Error loading image: "; Exc RuntimeError]]) w)
  /\ QuickConvert.convert_sprite_to_3d p "out.glb" 0.5 "extrude" w
     = (Ret false,
        set_stdout (fun l => l ++ [[Str "ERROR: Failed to load image: ";
                                    Exc RuntimeError]])
          (set_active None (set_objects (fun _ => []) w)))
  /\ Addon.execute (Addon.mkOperator p 0.5 "extrude") w
     = (Ret Addon.CANCELLED,
        set_reports (fun l => l ++ [("ERROR", [Str "Failed to load image: ";
                                               Str p])]) w)
  /\ CharacterTo3D.create_billboard_character p "out.glb" "extrude" 0.5 w
     = (Raise RuntimeError,
        set_stdout (fun l => l ++ [[Str "Loading character sprite: "; Str p]]) w).
Proof.
  apply (unreadable_sprite read_only_session "broken.png" "out.glb" "extrude"
           0.5 Unreadable).
  - reflexivity.
  - reflexivity.
Defined.

(** X3: an image whose height reads as 0. Every conversion stops at
    [aspect = width / height] with an uncaught ZeroDivisionError: the image
    data-block has been created, nothing else has been built or written. *)
Theorem zero_height_sprite (w : World) (p out method : string) (depth : Q)
    (wd : Z) :
  fs w !! p = Some (ImageFile wd 0) ->
  let loaded := set_images (fun l => l ++ [mkImage p (wd, 0%Z)]) w in
  SpriteTo3D.create_3d_from_sprite p out depth method w
  = (Raise ZeroDivisionError,
     set_stdout (fun l => l ++ [[Str "Loading sprite: "; Str p]]) loaded)
  /\ CharacterTo3D.create_billboard_character p out method depth w
     = (Raise ZeroDivisionError,
        set_stdout (fun l => l ++ [[Str "Loading character sprite: "; Str p]])
          loaded)
  /\ QuickConvert.convert_sprite_to_3d p out depth method w
     = (Raise ZeroDivisionError,
        set_active None (set_objects (fun _ => []) loaded))
  /\ Addon.execute (Addon.mkOperator p depth method) w
     = (Raise ZeroDivisionError, loaded).
Proof.
  destruct w; cbn [fs]; intros Hp.
  unfold SpriteTo3D.create_3d_from_sprite, QuickConvert.convert_sprite_to_3d,
    Addon.execute, CharacterTo3D.create_billboard_character,
    CharacterTo3D.load_sprite_image.
  cbn [Addon.self_filepath].
  repeat split; run; reflexivity.
Qed.

Lemma zero_height_sprite_witness :
  let w := flat_sprite in
  let p := "flat.png" in
  let loaded := set_images (fun l => l ++ [mkImage p (16, 0)%Z]) w in
  SpriteTo3D.create_3d_from_sprite p "out.glb" 0.5 "extrude" w
  = (Raise ZeroDivisionError,
     set_stdout (fun l => l ++ [[Str "Loading sprite: "; Str p]]) loaded)
  /\ CharacterTo3D.create_billboard_character p "out.glb" "extrude" 0.5 w
     = (Raise ZeroDivisionError,
        set_stdout (fun l => l ++ [[Str "Loading character sprite: "; Str p]])
          loaded)
  /\ QuickConvert.convert_sprite_to_3d p "out.glb" 0.5 "extrude" w
     = (Raise ZeroDivisionError,
        set_active None (set_objects (fun _ => []) loaded))
  /\ Addon.execute (Addon.mkOperator p 0.5 "extrude") w
     = (Raise ZeroDivisionError, loaded).
Proof.
  apply (zero_height_sprite flat_sprite "flat.png" "out.glb" "extrude" 0.5 16).
  reflexivity.
Defined.

(** ** What a conversion of a loadable sprite ends in *)

Ltac method_cases :=
  repeat match goal with
         | |- context [String.eqb ?m ?s] =>
             is_var m; destruct (String.eqb m s) eqn:?
         end.

Lemma sprite_conversion_outcome w p out d method wd ht :
  fs w !! p = Some (ImageFile wd ht) -> (ht =? 0)%Z = false ->
  let r := SpriteTo3D.create_3d_from_sprite p out d method w in
  (exists more, objects r.2 = objects w ++ more)
  /\ if gltf_can_write (host w) out
     then r.1 = Ret true
          /\ fs r.2 = <[out := GlbFile (objects r.2) (materials r.2)]> (fs w)
          /\ last (stdout r.2)
             = Some [Str "✅ Successfully exported: "; Str out]
     else r.1 = Raise RuntimeError /\ fs r.2 = fs w.
Proof.
  destruct w; cbn [fs host objects]; intros Hp Hht.
  unfold SpriteTo3D.create_3d_from_sprite, SpriteTo3D.extrude_branch,
    SpriteTo3D.voxel_branch, SpriteTo3D.export_glb.
  method_cases; run.
  all: try (rewrite (for_each_add_layer true _ _ _ _ _
                       (sprite_voxel_layer_run _ _ _ _)); after_layers; run).
  all: host_cases; run; cbn [fst snd fs objects materials stdout].
  all: (split; [eexists; try reflexivity; by rewrite app_nil_r|]).
  all: repeat split; try reflexivity; apply last_snoc.
Qed.

Lemma character_conversion_outcome w p out d method wd ht :
  fs w !! p = Some (ImageFile wd ht) -> (ht =? 0)%Z = false ->
  let r := CharacterTo3D.create_billboard_character p out method d w in
  (exists more, objects r.2 = objects w ++ more)
  /\ if gltf_can_write (host w) out
     then r.1 = Ret true
          /\ fs r.2 = <[out := GlbFile (objects r.2) (materials r.2)]> (fs w)
          /\ last (stdout r.2)
             = Some [Str "âœ… Successfully exported: "; Str out]
     else r.1 = Raise RuntimeError /\ fs r.2 = fs w.
Proof.
  destruct w; cbn [fs host objects]; intros Hp Hht.
  unfold CharacterTo3D.create_billboard_character,
    CharacterTo3D.load_sprite_image, CharacterTo3D.billboard_branch,
    CharacterTo3D.billboard_depth_branch, CharacterTo3D.capsule_branch,
    CharacterTo3D.export_glb.
  method_cases; run.
  all: host_cases; run; cbn [fst snd fs objects materials stdout].
  all: (split; [eexists; rewrite <- ?app_assoc; try reflexivity;
                by rewrite app_nil_r|]).
  all: repeat split; try reflexivity; apply last_snoc.
Qed.

(** X4: a conversion of a loadable sprite on a host that can write the
    output path returns True for every method string, its last printed
    line is the success line, and the file it leaves holds exactly the
    scene and the materials as they are at the end of the call; objects
    that were in the scene before the call are still there (the conversion
    functions of the sprite and character scripts do not clear the
    scene). *)
Theorem conversion_exports_final_scene (w : World) (p out method : string)
    (d : Q) (wd ht : Z) :
  fs w !! p = Some (ImageFile wd ht) -> ht <> 0%Z ->
  gltf_can_write (host w) out = true ->
  let r1 := SpriteTo3D.create_3d_from_sprite p out d method w in
  let r2 := CharacterTo3D.create_billboard_character p out method d w in
  (r1.1 = Ret true
   /\ fs r1.2 = <[out := GlbFile (objects r1.2) (materials r1.2)]> (fs w)
   /\ (exists more, objects r1.2 = objects w ++ more)
   /\ last (stdout r1.2) = Some [Str "✅ Successfully exported: "; Str out])
  /\ (r2.1 = Ret true
      /\ fs r2.2 = <[out := GlbFile (objects r2.2) (materials r2.2)]> (fs w)
      /\ (exists more, objects r2.2 = objects w ++ more)
      /\ last (stdout r2.2) = Some [Str "âœ… Successfully exported: "; Str out]).
Proof.
  intros Hp Hht%Z.eqb_neq Hw.
  destruct (sprite_conversion_outcome w p out d method wd ht Hp Hht) as [Ho1 H1].
  destruct (character_conversion_outcome w p out d method wd ht Hp Hht)
    as [Ho2 H2].
  rewrite Hw in H1, H2. cbv zeta. intuition.
Qed.

Lemma conversion_exports_final_scene_witness :
  let w := wide_sprite in
  let r1 := SpriteTo3D.create_3d_from_sprite "sprite.png" "out.glb" 0.5
              "voxel" w in
  let r2 := CharacterTo3D.create_billboard_character "sprite.png" "out.glb"
              "capsule" 0.5 w in
  (r1.1 = Ret true
   /\ fs r1.2 = <["out.glb" := GlbFile (objects r1.2) (materials r1.2)]> (fs w)
   /\ (exists more, objects r1.2 = objects w ++ more)
   /\ last (stdout r1.2) = Some [Str "✅ Successfully exported: "; Str "out.glb"])
  /\ (r2.1 = Ret true
      /\ fs r2.2 = <["out.glb" := GlbFile (objects r2.2) (materials r2.2)]> (fs w)
      /\ (exists more, objects r2.2 = objects w ++ more)
      /\ last (stdout r2.2)
         = Some [Str "âœ… Successfully exported: "; Str "out.glb"]).
Proof.
  split.
  - apply (conversion_exports_final_scene wide_sprite "sprite.png" "out.glb"
             "voxel" 0.5 800 400); [reflexivity | lia | reflexivity].
  - apply (conversion_exports_final_scene wide_sprite "sprite.png" "out.glb"
             "capsule" 0.5 800 400); [reflexivity | lia | reflexivity].
Defined.

(** X5: when the host cannot write the output path, a conversion of a
    loadable sprite does not return False: the exporter's RuntimeError
    escapes from the function, for every method string, and the file
    system is as it was before the call. *)
Theorem export_failure_escapes (w : World) (p out method : string) (d : Q)
    (wd ht : Z) :
  fs w !! p = Some (ImageFile wd ht) -> ht <> 0%Z ->
  gltf_can_write (host w) out = false ->
  let r1 := SpriteTo3D.create_3d_from_sprite p out d method w in
  let r2 := CharacterTo3D.create_billboard_character p out method d w in
  (r1.1 = Raise RuntimeError /\ fs r1.2 = fs w)
  /\ (r2.1 = Raise RuntimeError /\ fs r2.2 = fs w).
Proof.
  intros Hp Hht%Z.eqb_neq Hw.
  destruct (sprite_conversion_outcome w p out d method wd ht Hp Hht) as [_ H1].
  destruct (character_conversion_outcome w p out d method wd ht Hp Hht)
    as [_ H2].
  rewrite Hw in H1, H2. by split.
Qed.

Lemma export_failure_escapes_witness :
  let w := read_only_session in
  let r1 := SpriteTo3D.create_3d_from_sprite "sprite.png" "out.glb" 0.5
              "extrude" w in
  let r2 := CharacterTo3D.create_billboard_character "sprite.png" "out.glb"
              "extrude" 0.5 w in
  (r1.1 = Raise RuntimeError /\ fs r1.2 = fs w)
  /\ (r2.1 = Raise RuntimeError /\ fs r2.2 = fs w).
Proof.
  apply (export_failure_escapes read_only_session "sprite.png" "out.glb"
           "extrude" 0.5 800 400).
  - reflexivity.
  - lia.
  - reflexivity.
Defined.

(** X6: when [create_3d_from_sprite] returns False it has touched nothing
    but standard output: no object, material or image has been created and
    the file system is unchanged. (After a successful load the function
    ends in True or in an exception, never in False.) *)
Theorem false_means_untouched (w : World) (p out method : string) (d : Q) :
  (SpriteTo3D.create_3d_from_sprite p out d method w).1 = Ret false ->
  let w' := (SpriteTo3D.create_3d_from_sprite p out d method w).2 in
  fs w' = fs w /\ objects w' = objects w /\ materials w' = materials w
  /\ images w' = images w /\ textures w' = textures w.
Proof.
  destruct (fs w !! p) as [[|wd ht| |]|] eqn:Hp.
  2: destruct (ht =? 0)%Z eqn:Hht.
  3: { destruct (sprite_conversion_outcome w p out d method wd ht Hp Hht)
         as [_ H].
       destruct (gltf_can_write (host w) out); destruct H as [-> _];
         discriminate. }
  all: destruct w; cbn [fs] in Hp.
  all: unfold SpriteTo3D.create_3d_from_sprite; run.
  all: try discriminate; done.
Qed.

Lemma false_means_untouched_witness :
  let w' := (SpriteTo3D.create_3d_from_sprite "missing.png" "out.glb" 0.5
               "extrude" wide_sprite).2 in
  fs w' = fs wide_sprite /\ objects w' = objects wide_sprite
  /\ materials w' = materials wide_sprite
  /\ images w' = images wide_sprite /\ textures w' = textures wide_sprite.
Proof.
  apply (false_means_untouched wide_sprite "missing.png" "out.glb" "extrude" 0.5).
  reflexivity.
Defined.

(** ** The scenes of the remaining branches *)

(** X7: for the 'billboard' method the character conversion adds exactly
    one plane, named CharacterBillboard, at the origin with scale
    (aspect, 1, 1), and exactly one material, in blend mode, whose base
    colour and alpha are driven by the sprite image. *)
Theorem character_billboard (w : World) (p out : string) (d : Q) (wd ht : Z) :
  fs w !! p = Some (ImageFile wd ht) -> ht <> 0%Z ->
  let w' := (CharacterTo3D.create_billboard_character p out "billboard" d w).2 in
  exists o m img,
    objects w' = objects w ++ [o]
    /\ materials w' = materials w ++ [m]
    /\ images w' !! img = Some (mkImage p (wd, ht))
    /\ o_name o = "CharacterBillboard"
    /\ o_materials o = [length (materials w)]
    /\ textured_plane img (inject_Z wd / inject_Z ht, 1, 1)%Q (0, 0, 0)%Q o m.
Proof.
  destruct w; cbn [fs objects materials]; intros Hp Hht%Z.eqb_neq.
  unfold CharacterTo3D.create_billboard_character,
    CharacterTo3D.load_sprite_image, CharacterTo3D.billboard_branch,
    CharacterTo3D.export_glb.
  run. host_cases; run; cbn [snd objects materials images].
  all: do 3 eexists; split; [reflexivity|]; split; [reflexivity|].
  all: split; [apply lookup_snoc|]; split; [reflexivity|].
  all: split; [reflexivity|]; unfold textured_plane.
  all: cbn [o_prim o_scale o_location m_blend_method].
  all: split; [reflexivity|]; split; [by cbn|]; split; [by cbn|].
  all: split; [reflexivity|]; split; binds_done.
Qed.

Lemma character_billboard_witness :
  let w' := (CharacterTo3D.create_billboard_character "sprite.png" "out.glb"
               "billboard" 0.1 wide_sprite).2 in
  exists o m img,
    objects w' = objects wide_sprite ++ [o]
    /\ materials w' = materials wide_sprite ++ [m]
    /\ images w' !! img = Some (mkImage "sprite.png" (800, 400)%Z)
    /\ o_name o = "CharacterBillboard"
    /\ o_materials o = [length (materials wide_sprite)]
    /\ textured_plane img (inject_Z 800 / inject_Z 400, 1, 1)%Q (0, 0, 0)%Q o m.
Proof.
  apply (character_billboard wide_sprite "sprite.png" "out.glb" 0.1 800 400).
  - reflexivity.
  - lia.
Defined.

Lemma layer_stack_intro aspect d before w' mat :
  objects w' = before ++ layer_planes aspect d 8 mat (range 8) ->
  layer_stack aspect d before w'.
Proof.
  intros Ho. exists (layer_planes aspect d 8 mat (range 8)).
  split; [done|]. split; [done|]. split.
  - intros k o Hk.
    destruct (lookup_layer_planes _ _ _ _ _ _ _ Hk) as (i & Hi & ->).
    destruct (lookup_range _ _ _ Hi) as [-> _].
    split; [done|]. split; [done|]. split; [done|].
    by apply layer_height.
  - intros k o o' Hk Hk'.
    destruct (lookup_layer_planes _ _ _ _ _ _ _ Hk) as (i & Hi & ->).
    destruct (lookup_layer_planes _ _ _ _ _ _ _ Hk') as (i' & Hi' & ->).
    destruct (lookup_range _ _ _ Hi) as [-> _].
    destruct (lookup_range _ _ _ Hi') as [-> _].
    rewrite !layer_height by done.
    rewrite Nat2Z.inj_succ. unfold Z.succ. rewrite inject_Z_plus. field.
Qed.

(** X8: for every depth, the voxel branch of the sprite script, of
    quick-convert and of the operator builds eight planes named
    SpriteLayer_0 .. SpriteLayer_7 with the scale keyword (aspect, 1, 1):
    plane [k] at [y = -depth/2 + k * depth/8], each [depth/8] after the one
    before. Quick-convert starts from the cleared scene, the other two add
    to the scene they find. *)
Theorem voxel_stack_any_depth (w : World) (p out : string) (d : Q) (wd ht : Z) :
  fs w !! p = Some (ImageFile wd ht) -> ht <> 0%Z ->
  let aspect := (inject_Z wd / inject_Z ht)%Q in
  layer_stack aspect d (objects w)
    (SpriteTo3D.create_3d_from_sprite p out d "voxel" w).2
  /\ layer_stack aspect d []
       (QuickConvert.convert_sprite_to_3d p out d "voxel" w).2
  /\ layer_stack aspect d (objects w)
       (Addon.execute (Addon.mkOperator p d "VOXEL") w).2.
Proof.
  intros Hp Hht%Z.eqb_neq. cbv zeta. split; [|split].
  - destruct (sprite_voxel_scene w p out d wd ht Hp Hht) as (Ho & _).
    by eapply layer_stack_intro.
  - destruct (quick_voxel_scene w p out d wd ht Hp Hht) as (Ho & _).
    by eapply (layer_stack_intro _ _ []).
  - destruct (addon_voxel_scene w p d wd ht Hp Hht) as (_ & Ho & _).
    by eapply layer_stack_intro.
Qed.

Lemma voxel_stack_any_depth_witness :
  let w := wide_sprite in
  let aspect := (inject_Z 800 / inject_Z 400)%Q in
  layer_stack aspect 1.5 (objects w)
    (SpriteTo3D.create_3d_from_sprite "sprite.png" "out.glb" 1.5 "voxel" w).2
  /\ layer_stack aspect 1.5 []
       (QuickConvert.convert_sprite_to_3d "sprite.png" "out.glb" 1.5 "voxel" w).2
  /\ layer_stack aspect 1.5 (objects w)
       (Addon.execute (Addon.mkOperator "sprite.png" 1.5 "VOXEL") w).2.
Proof.
  apply (voxel_stack_any_depth wide_sprite "sprite.png" "out.glb" 1.5 800 400).
  - reflexivity.
  - lia.
Defined.

(** X9: the extrude branch of the sprite script loads the sprite a second
    time and makes a texture data-block: after the call [bpy.data.images]
    has two new entries for the same path, the material's texture node
    shows the second one (not the first, whose size gave the aspect), and
    a texture named SpriteTexture pointing at the second image exists that
    no material refers to. Quick-convert loads the image once and creates
    no texture. *)
Theorem sprite_extrude_loads_twice (w : World) (p out : string) (d : Q)
    (wd ht : Z) :
  fs w !! p = Some (ImageFile wd ht) -> ht <> 0%Z ->
  let w1 := (SpriteTo3D.create_3d_from_sprite p out d "extrude" w).2 in
  let w2 := (QuickConvert.convert_sprite_to_3d p out d "extrude" w).2 in
  let first := length (images w) in
  images w1 = images w ++ [mkImage p (wd, ht); mkImage p (wd, ht)]
  /\ textures w1 = textures w ++ [mkTexture "SpriteTexture" "IMAGE" (Some (S first))]
  /\ (exists m, materials w1 = materials w ++ [m]
                /\ binds m (S first) "Color" "Base Color" = true
                /\ binds m first "Color" "Base Color" = false)
  /\ images w2 = images w ++ [mkImage p (wd, ht)]
  /\ textures w2 = textures w.
Proof.
  destruct w; cbn [fs images textures materials]; intros Hp Hht%Z.eqb_neq.
  split; [|split; [|split; [|split]]].
  1-3: unfold SpriteTo3D.create_3d_from_sprite, SpriteTo3D.extrude_branch,
         SpriteTo3D.export_glb; run; host_cases; run;
       cbn [snd images textures materials]; snoc_norm.
  1-8: try reflexivity.
  1-4: eexists; split; [reflexivity|]; unfold binds; cbn;
       rewrite bool_decide_true by done;
       rewrite bool_decide_false by (intros [=]; lia); done.
  all: unfold QuickConvert.convert_sprite_to_3d, QuickConvert.extrude_branch,
         QuickConvert.export_glb.
  all: generalize (dirname out); intros dn.
  all: destruct dn as [|a dn]; [|destruct (fs0 !! String a dn) as [[]|] eqn:E].
  all: run; host_cases; run; reflexivity.
Qed.

Lemma sprite_extrude_loads_twice_witness :
  let w := wide_sprite in
  let w1 := (SpriteTo3D.create_3d_from_sprite "sprite.png" "out.glb" 0.5
               "extrude" w).2 in
  let w2 := (QuickConvert.convert_sprite_to_3d "sprite.png" "out.glb" 0.5
               "extrude" w).2 in
  let first := length (images w) in
  images w1 = images w ++ [mkImage "sprite.png" (800, 400)%Z;
                           mkImage "sprite.png" (800, 400)%Z]
  /\ textures w1 = textures w ++ [mkTexture "SpriteTexture" "IMAGE" (Some (S first))]
  /\ (exists m, materials w1 = materials w ++ [m]
                /\ binds m (S first) "Color" "Base Color" = true
                /\ binds m first "Color" "Base Color" = false)
  /\ images w2 = images w ++ [mkImage "sprite.png" (800, 400)%Z]
  /\ textures w2 = textures w.
Proof.
  apply (sprite_extrude_loads_twice wide_sprite "sprite.png" "out.glb" 0.5
           800 400).
  - reflexivity.
  - lia.
Defined.

(** X10: the character conversion looks at [depth] only in the
    'billboard-depth' branch: for every other method string two calls that
    differ only in depth do the same. *)
Theorem depth_only_for_billboard_depth (w : World) (p out method : string)
    (d1 d2 : Q) :
  method <> "billboard-depth" ->
  CharacterTo3D.create_billboard_character p out method d1 w
  = CharacterTo3D.create_billboard_character p out method d2 w.
Proof.
  intros H%String.eqb_neq.
  unfold CharacterTo3D.create_billboard_character. rewrite H.
  reflexivity.
Qed.

Lemma depth_only_for_billboard_depth_witness :
  CharacterTo3D.create_billboard_character "sprite.png" "out.glb" "capsule"
    0.1 wide_sprite
  = CharacterTo3D.create_billboard_character "sprite.png" "out.glb" "capsule"
      2.0 wide_sprite.
Proof.
  apply (depth_only_for_billboard_depth wide_sprite "sprite.png" "out.glb"
           "capsule" 0.1 2.0).
  discriminate.
Defined.

(** ** The operator *)

(** X11: whatever its properties hold, [execute] of the operator never
    writes a file, never prints and never removes an object: the file
    system and standard output are as before and the old scene is a prefix
    of the new one. When it returns (FINISHED or CANCELLED) it has made
    exactly one report; when an exception escapes it has made none. *)
Theorem operator_frame (self : Addon.ConvertSpriteTo3D) (w : World) :
  let r := Addon.execute self w in
  fs r.2 = fs w
  /\ stdout r.2 = stdout w
  /\ (exists more, objects r.2 = objects w ++ more)
  /\ match r.1 with
     | Ret _ => exists rep, reports r.2 = reports w ++ [rep]
     | Raise _ => reports r.2 = reports w
     end.
Proof.
  destruct self as [p d method], w.
  unfold Addon.execute, Addon.extrude_branch, Addon.voxel_branch.
  cbn [Addon.self_filepath Addon.self_method Addon.self_depth fs stdout
       objects reports].
  destruct (fs0 !! p) as [[|wd ht| |]|] eqn:Hp.
  2: destruct (ht =? 0)%Z eqn:Hht.
  3: method_cases.
  all: run.
  all: try (rewrite (for_each_add_layer false _ _ _ _ _
                       (addon_voxel_layer_run _ _ _ _)); after_layers; run).
  all: cbn [fst snd fs stdout objects reports].
  all: split; [reflexivity|]; split; [reflexivity|].
  all: split; [eexists; try reflexivity; by rewrite app_nil_r|].
  all: try reflexivity; by eexists.
Qed.

(** ** The scripts' command lines *)

Lemma list_index_none x l : x ∉ l -> list_index x l = None.
Proof.
  induction l as [|y l IH]; intros Hx; [done|].
  apply not_elem_of_cons in Hx as [Hne Hx].
  apply not_eq_sym, String.eqb_neq in Hne.
  cbn [list_index]. by rewrite Hne, IH.
Qed.

(** X12: when [sys.argv] contains no "--", the sprite and character
    scripts take the argument list to be empty, print their usage and
    return; the FBX script fails on [argv.index("--")] with a ValueError
    before it has printed or changed anything. *)
Theorem no_double_dash (py_float : string -> option Q) (w : World)
    (sys_argv : list string) :
  "--" ∉ sys_argv ->
  let cleared := set_active None (set_objects (fun _ => []) w) in
  SpriteTo3D.script py_float sys_argv w
  = (Ret tt,
     set_stdout
       (fun l => l ++ [[Str "Usage: blender --background --python blender-sprite-to-3d.py -- <sprite_path> <output_path> [depth] [method]"];
                       [Str "Example: blender --background --python blender-sprite-to-3d.py -- sprite.png output.glb 0.5 extrude"]])
       cleared)
  /\ CharacterTo3D.script py_float sys_argv w
     = (Ret tt,
        set_stdout
          (fun l => l ++ [[Str "Usage: blender --background --python blender-character-to-3d.py -- <sprite_path> <output_path> [method] [depth]"];
                          [Str "Methods: billboard, billboard-depth, capsule"];
                          [Str "Example: blender --background --python blender-character-to-3d.py -- sprite.png output.glb billboard-depth 0.1"]])
          cleared)
  /\ FbxToGlb.script sys_argv w = (Raise ValueError, w).
Proof.
  intros H%list_index_none.
  unfold SpriteTo3D.script, SpriteTo3D.main, CharacterTo3D.script,
    CharacterTo3D.main, FbxToGlb.script.
  rewrite H. destruct w; cbn [length Nat.ltb Nat.leb].
  repeat split; run; rewrite <- ?app_assoc; reflexivity.
Qed.

Lemma no_double_dash_witness :
  let w := wide_sprite in
  let sys_argv := ["blender"; "sprite.png"; "out.glb"] in
  let cleared := set_active None (set_objects (fun _ => []) w) in
  SpriteTo3D.script decimal_float sys_argv w
  = (Ret tt,
     set_stdout
       (fun l => l ++ [[Str "Usage: blender --background --python blender-sprite-to-3d.py -- <sprite_path> <output_path> [depth] [method]"];
                       [Str "Example: blender --background --python blender-sprite-to-3d.py -- sprite.png output.glb 0.5 extrude"]])
       cleared)
  /\ CharacterTo3D.script decimal_float sys_argv w
     = (Ret tt,
        set_stdout
          (fun l => l ++ [[Str "Usage: blender --background --python blender-character-to-3d.py -- <sprite_path> <output_path> [method] [depth]"];
                          [Str "Methods: billboard, billboard-depth, capsule"];
                          [Str "Example: blender --background --python blender-character-to-3d.py -- sprite.png output.glb billboard-depth 0.1"]])
          cleared)
  /\ FbxToGlb.script sys_argv w = (Raise ValueError, w).
Proof.
  apply (no_double_dash decimal_float wide_sprite
           ["blender"; "sprite.png"; "out.glb"]).
  apply (bool_decide_unpack _). vm_compute. exact I.
Defined.



(** X14: arguments beyond the ones a script reads are ignored: a fifth
    and later argument of the sprite and character scripts, a third and
    later argument of the FBX script. *)
Theorem extra_arguments_ignored (py_float : string -> option Q) (w : World)
    (pre extra : list string) (p out a3 a4 : string) :
  "--" ∉ pre ->
  SpriteTo3D.script py_float (pre ++ "--" :: p :: out :: a3 :: a4 :: extra) w
  = SpriteTo3D.script py_float (pre ++ ["--"; p; out; a3; a4]) w
  /\ CharacterTo3D.script py_float (pre ++ "--" :: p :: out :: a3 :: a4 :: extra) w
     = CharacterTo3D.script py_float (pre ++ ["--"; p; out; a3; a4]) w
  /\ FbxToGlb.script (pre ++ "--" :: p :: out :: extra) w
     = FbxToGlb.script (pre ++ ["--"; p; out]) w.
Proof.
  intros Hpre.
  unfold SpriteTo3D.script, SpriteTo3D.main, CharacterTo3D.script,
    CharacterTo3D.main, FbxToGlb.script.
  destruct (arguments_after_dashes pre (p :: out :: a3 :: a4 :: extra) Hpre)
    as [-> ->].
  destruct (arguments_after_dashes pre [p; out; a3; a4] Hpre) as [-> ->].
  destruct (arguments_after_dashes pre (p :: out :: extra) Hpre) as [-> ->].
  destruct (arguments_after_dashes pre [p; out] Hpre) as [-> ->].
  done.
Qed.

Lemma extra_arguments_ignored_witness :
  let w := wide_sprite in
  let pre := ["blender"; "--python"; "script.py"] in
  SpriteTo3D.script decimal_float
    (pre ++ "--" :: "sprite.png" :: "out.glb" :: "0.5" :: "voxel" :: ["--"; "x"]) w
  = SpriteTo3D.script decimal_float
      (pre ++ ["--"; "sprite.png"; "out.glb"; "0.5"; "voxel"]) w
  /\ CharacterTo3D.script decimal_float
       (pre ++ "--" :: "sprite.png" :: "out.glb" :: "0.5" :: "voxel" :: ["--"; "x"]) w
     = CharacterTo3D.script decimal_float
         (pre ++ ["--"; "sprite.png"; "out.glb"; "0.5"; "voxel"]) w
  /\ FbxToGlb.script (pre ++ "--" :: "sprite.png" :: "out.glb" :: ["--"; "x"]) w
     = FbxToGlb.script (pre ++ ["--"; "sprite.png"; "out.glb"]) w.
Proof.
  apply (extra_arguments_ignored decimal_float wide_sprite
           ["blender"; "--python"; "script.py"] ["--"; "x"]
           "sprite.png" "out.glb" "0.5" "voxel").
  apply (bool_decide_unpack _). vm_compute. exact I.
Defined.



(** X16: a complete run of the sprite script with only the two mandatory
    arguments, a loadable sprite, an existing output directory and a host
    that can write exits with code 0; the defaults are depth 0.5 and method
    'extrude'. The scene exported to the output path is the scene at the
    end of the run and consists of the one new box: objects that were in
    the scene before the script started have been deleted. *)
Theorem sprite_script_default_run (py_float : string -> option Q) (w : World)
    (pre : list string) (p out : string) (wd ht : Z) :
  "--" ∉ pre -> fs w !! p = Some (ImageFile wd ht) -> ht <> 0%Z ->
  fs w !! (if negb (String.eqb (dirname out) "") then dirname out else ".")
  = Some Dir ->
  gltf_can_write (host w) out = true ->
  let r := SpriteTo3D.script py_float (pre ++ ["--"; p; out]) w in
  r.1 = Raise (SystemExit 0)
  /\ fs r.2 = <[out := GlbFile (objects r.2) (materials r.2)]> (fs w)
  /\ exists box,
       objects r.2 = [box]
       /\ o_prim box = Cube
       /\ veq (o_scale box) (inject_Z wd / inject_Z ht, 1, 0.5)%Q.
Proof.
  intros Hpre Hp Hht%Z.eqb_neq Hd Hw.
  unfold SpriteTo3D.script, SpriteTo3D.main.
  destruct (arguments_after_dashes pre [p; out] Hpre) as [-> ->].
  cbn [length Nat.ltb Nat.leb item nth].
  unfold SpriteTo3D.create_3d_from_sprite, SpriteTo3D.extrude_branch,
    SpriteTo3D.export_glb.
  destruct w; cbn [fs host] in *.
  destruct (dirname out) as [|a dn]; cbn [String.eqb negb] in Hd.
  all: run; host_cases; run; try discriminate.
  all: cbn [fst snd fs objects materials].
  all: split; [reflexivity|]; split; [reflexivity|].
  all: eexists; split; [reflexivity|]; split; [reflexivity|]; by cbn.
Qed.

Lemma sprite_script_default_run_witness :
  let w := set_fs (fun m => <["." := Dir]> m) wide_sprite in
  let r := SpriteTo3D.script decimal_float
             (["blender"; "--python"; "script.py"]
              ++ ["--"; "sprite.png"; "out.glb"]) w in
  r.1 = Raise (SystemExit 0)
  /\ fs r.2 = <["out.glb" := GlbFile (objects r.2) (materials r.2)]> (fs w)
  /\ exists box,
       objects r.2 = [box]
       /\ o_prim box = Cube
       /\ veq (o_scale box) (inject_Z 800 / inject_Z 400, 1, 0.5)%Q.
Proof.
  apply (sprite_script_default_run decimal_float
           (set_fs (fun m => <["." := Dir]> m) wide_sprite)
           ["blender"; "--python"; "script.py"] "sprite.png" "out.glb" 800 400).
  - apply (bool_decide_unpack _). vm_compute. exact I.
  - reflexivity.
  - lia.
  - reflexivity.
  - reflexivity.
Defined.

(** ** The FBX script *)



(** X18: the FBX script checks the input before it touches the scene: on
    an input path that does not exist it prints its header and the error
    line and exits with code 1, leaving scene, materials and files as they
    were. *)
Theorem fbx_missing_input (w : World) (pre : list string)
    (input output : string) :
  "--" ∉ pre -> fs w !! input = None ->
  FbxToGlb.script (pre ++ ["--"; input; output]) w
  = (Raise (SystemExit 1),
     set_stdout
       (fun l => l ++ [[Str (newline +:+ str_mul "=" 50)];
                       [Str "FBX to GLB Converter"];
                       [Str (str_mul "=" 50)];
                       [Str "Input:  "; Str input];
                       [Str "Output: "; Str output];
                       [Str "ERROR: Input file not found: "; Str input]]) w).
Proof.
  intros Hpre Hin.
  destruct (arguments_after_dashes pre [input; output] Hpre) as [Hi Hd].
  unfold FbxToGlb.script. rewrite Hi, Hd.
  cbn [length Nat.ltb Nat.leb item nth].
  generalize (newline +:+ str_mul "=" 50), (str_mul "=" 50); intros s1 s2.
  destruct w; cbn [fs] in *.
  run. rewrite <- !app_assoc. reflexivity.
Qed.

Lemma fbx_missing_input_witness :
  let w := fbx_session in
  FbxToGlb.script (["blender"] ++ ["--"; "other.fbx"; "out.glb"]) w
  = (Raise (SystemExit 1),
     set_stdout
       (fun l => l ++ [[Str (newline +:+ str_mul "=" 50)];
                       [Str "FBX to GLB Converter"];
                       [Str (str_mul "=" 50)];
                       [Str "Input:  "; Str "other.fbx"];
                       [Str "Output: "; Str "out.glb"];
                       [Str "ERROR: Input file not found: "; Str "other.fbx"]]) w).
Proof.
  apply (fbx_missing_input fbx_session ["blender"] "other.fbx" "out.glb").
  - apply (bool_decide_unpack _). vm_compute. exact I.
  - reflexivity.
Defined.



(** ** The quick-convert script *)

(** X20: the main block of quick-convert, on a session where the
    configured sprite path does not exist: it prints the banner, the
    function prints its error and returns False, and the block prints the
    failure line and ends normally; it never calls [sys.exit]. The scene
    has been cleared by then. *)
Theorem quick_convert_script_missing_sprite (w : World) :
  fs w !! QuickConvert.SPRITE_PATH = None ->
  QuickConvert.script w
  = (Ret tt,
     set_stdout
       (fun l => l ++ [[Str (newline +:+ str_mul "=" 50)];
                       [Str "Sprite to 3D Converter"];
                       [Str (str_mul "=" 50 +:+ newline)];
                       [Str "ERROR: File not found: ";
                        Str QuickConvert.SPRITE_PATH];
                       [Str (newline +:+ "❌ Conversion failed. Check paths and try again.")]])
       (set_active None (set_objects (fun _ => []) w))).
Proof.
  intros Hp. unfold QuickConvert.script, QuickConvert.convert_sprite_to_3d.
  generalize (newline +:+ str_mul "=" 50), (str_mul "=" 50 +:+ newline),
    (newline +:+ "❌ Conversion failed. Check paths and try again.");
    intros s1 s2 s3.
  generalize dependent QuickConvert.SPRITE_PATH; intros sp Hp.
  destruct w; cbn [fs] in *.
  run. rewrite <- !app_assoc. reflexivity.
Qed.

Lemma quick_convert_script_missing_sprite_witness :
  let w := wide_sprite in
  QuickConvert.script w
  = (Ret tt,
     set_stdout
       (fun l => l ++ [[Str (newline +:+ str_mul "=" 50)];
                       [Str "Sprite to 3D Converter"];
                       [Str (str_mul "=" 50 +:+ newline)];
                       [Str "ERROR: File not found: ";
                        Str QuickConvert.SPRITE_PATH];
                       [Str (newline +:+ "❌ Conversion failed. Check paths and try again.")]])
       (set_active None (set_objects (fun _ => []) w))).
Proof.
  apply (quick_convert_script_missing_sprite wide_sprite).
  reflexivity.
Defined.

(** X21: the FBX script empties the session before it imports: when the
    import fails, it exits with code 1 with no object and no material
    left, and without having written anything. *)
Theorem fbx_failed_import_leaves_empty_scene (w : World) (pre : list string)
    (input output : string) (n : node) :
  "--" ∉ pre -> fs w !! input = Some n -> fbx_import (host w) input = None ->
  let r := FbxToGlb.script (pre ++ ["--"; input; output]) w in
  r.1 = Raise (SystemExit 1)
  /\ objects r.2 = [] /\ materials r.2 = [] /\ fs r.2 = fs w.
Proof.
  intros Hpre Hin Himp.
  destruct (arguments_after_dashes pre [input; output] Hpre) as [Hi Hd].
  unfold FbxToGlb.script. rewrite Hi, Hd.
  cbn [length Nat.ltb Nat.leb item nth].
  unfold import_scene_fbx, remove_all_materials.
  generalize (newline +:+ str_mul "=" 50), (str_mul "=" 50); intros s1 s2.
  destruct w; cbn [fs host] in *.
  run. done.
Qed.

Lemma fbx_failed_import_leaves_empty_scene_witness :
  let r := FbxToGlb.script (["blender"] ++ ["--"; "sprite.png"; "out.glb"])
             (set_objects (fun _ => [fbx_cube]) wide_sprite) in
  r.1 = Raise (SystemExit 1)
  /\ objects r.2 = [] /\ materials r.2 = []
  /\ fs r.2 = fs (set_objects (fun _ => [fbx_cube]) wide_sprite).
Proof.
  apply (fbx_failed_import_leaves_empty_scene
           (set_objects (fun _ => [fbx_cube]) wide_sprite) ["blender"]
           "sprite.png" "out.glb" (ImageFile 800 400)).
  - apply (bool_decide_unpack _). vm_compute. exact I.
  - reflexivity.
  - reflexivity.
Defined.

(** ** Conversions one after the other *)

Lemma sprite_conversion_keeps_host w p out d method :
  host (SpriteTo3D.create_3d_from_sprite p out d method w).2 = host w.
Proof.
  destruct w.
  unfold SpriteTo3D.create_3d_from_sprite, SpriteTo3D.extrude_branch,
    SpriteTo3D.voxel_branch, SpriteTo3D.export_glb.
  destruct (fs0 !! p) as [[|wd ht| |]|] eqn:Hp.
  2: destruct (ht =? 0)%Z eqn:Hht.
  3: method_cases.
  all: run.
  all: try (rewrite (for_each_add_layer true _ _ _ _ _
                       (sprite_voxel_layer_run _ _ _ _)); after_layers; run).
  all: host_cases; run; reflexivity.
Qed.

(** X22: [create_3d_from_sprite] does not clear the scene (only the
    module body does, once): a second extrude conversion in the same
    session adds its box to the first one, each box with its own new
    material, and the file of the second conversion holds both boxes. *)
Theorem second_conversion_stacks (w : World) (p out1 out2 : string) (d : Q)
    (wd ht : Z) :
  fs w !! p = Some (ImageFile wd ht) -> ht <> 0%Z -> p <> out1 ->
  gltf_can_write (host w) out1 = true ->
  gltf_can_write (host w) out2 = true ->
  let w1 := (SpriteTo3D.create_3d_from_sprite p out1 d "extrude" w).2 in
  let w2 := (SpriteTo3D.create_3d_from_sprite p out2 d "extrude" w1).2 in
  exists a b ma mb,
    objects w2 = objects w ++ [a; b]
    /\ o_prim a = Cube /\ o_prim b = Cube
    /\ materials w2 = materials w ++ [ma; mb]
    /\ o_materials a = [length (materials w)]
    /\ o_materials b = [S (length (materials w))]
    /\ fs w2 !! out2 = Some (GlbFile (objects w ++ [a; b])
                               (materials w ++ [ma; mb])).
Proof.
  intros Hp Hht%Z.eqb_neq Hne Hw1 Hw2 w1 w2.
  assert (Hs : veq (inject_Z wd / inject_Z ht, 1.0, d)%Q
                    (inject_Z wd / inject_Z ht, 1.0, d)%Q) by (by cbn).
  pose proof (sprite_extrude_scene w p out1 d wd ht _ Hp Hht Hs) as Hbox1.
  destruct (sprite_conversion_outcome w p out1 d "extrude" wd ht Hp Hht)
    as [_ Hout1].
  rewrite Hw1 in Hout1. destruct Hout1 as (_ & Hfs1 & _).
  fold w1 in Hbox1, Hfs1.
  assert (Hp1 : fs w1 !! p = Some (ImageFile wd ht))
    by (rewrite Hfs1, lookup_insert_ne by done; exact Hp).
  assert (Hh1 : host w1 = host w) by apply sprite_conversion_keeps_host.
  pose proof (sprite_extrude_scene w1 p out2 d wd ht _ Hp1 Hht Hs) as Hbox2.
  destruct (sprite_conversion_outcome w1 p out2 d "extrude" wd ht Hp1 Hht)
    as [_ Hout2].
  rewrite Hh1, Hw2 in Hout2. destruct Hout2 as (_ & Hfs2 & _).
  fold w2 in Hbox2, Hfs2.
  destruct Hbox1 as (a & ma & ? & Ho1 & Ha & _ & _ & Hm1 & Hma & _).
  destruct Hbox2 as (b & mb & ? & Ho2 & Hb & _ & _ & Hm2 & Hmb & _).
  exists a, b, ma, mb.
  assert (Ho : objects w2 = objects w ++ [a; b])
    by (by rewrite Ho2, Ho1, <- app_assoc).
  assert (Hm : materials w2 = materials w ++ [ma; mb])
    by (by rewrite Hm2, Hm1, <- app_assoc).
  split; [done|]. split; [done|]. split; [done|]. split; [done|].
  split; [done|]. split.
  - rewrite Hmb, Hm1, length_app. cbn. f_equal. lia.
  - by rewrite Hfs2, lookup_insert_eq, Ho, Hm.
Qed.

Lemma second_conversion_stacks_witness :
  let w := wide_sprite in
  let w1 := (SpriteTo3D.create_3d_from_sprite "sprite.png" "a.glb" 0.5
               "extrude" w).2 in
  let w2 := (SpriteTo3D.create_3d_from_sprite "sprite.png" "b.glb" 0.5
               "extrude" w1).2 in
  exists a b ma mb,
    objects w2 = objects w ++ [a; b]
    /\ o_prim a = Cube /\ o_prim b = Cube
    /\ materials w2 = materials w ++ [ma; mb]
    /\ o_materials a = [length (materials w)]
    /\ o_materials b = [S (length (materials w))]
    /\ fs w2 !! "b.glb" = Some (GlbFile (objects w ++ [a; b])
                                  (materials w ++ [ma; mb])).
Proof.
  apply (second_conversion_stacks wide_sprite "sprite.png" "a.glb" "b.glb" 0.5
           800 400).
  - reflexivity.
  - lia.
  - discriminate.
  - reflexivity.
  - reflexivity.
Defined.



(** X24: a complete run of the character script with only the two
    mandatory arguments, a loadable sprite, an existing output directory
    and a host that can write exits with code 0; the defaults are method
    'billboard-depth' and depth 0.1. The exported scene is the scene at the
    end of the run and consists of the billboard and its shadow plane at
    [y = -0.1]; objects from before the run have been deleted. *)
Theorem character_script_default_run (py_float : string -> option Q)
    (w : World) (pre : list string) (p out : string) (wd ht : Z) :
  "--" ∉ pre -> fs w !! p = Some (ImageFile wd ht) -> ht <> 0%Z ->
  fs w !! (if negb (String.eqb (dirname out) "") then dirname out else ".")
  = Some Dir ->
  gltf_can_write (host w) out = true ->
  let r := CharacterTo3D.script py_float (pre ++ ["--"; p; out]) w in
  r.1 = Raise (SystemExit 0)
  /\ fs r.2 = <[out := GlbFile (objects r.2) (materials r.2)]> (fs w)
  /\ exists front back,
       objects r.2 = [front; back]
       /\ o_name front = "CharacterBillboard"
       /\ o_name back = "CharacterShadow"
       /\ (y_of back == -0.1)%Q.
Proof.
  intros Hpre Hp Hht%Z.eqb_neq Hd Hw.
  unfold CharacterTo3D.script, CharacterTo3D.main.
  destruct (arguments_after_dashes pre [p; out] Hpre) as [-> ->].
  cbn [length Nat.ltb Nat.leb item nth].
  unfold CharacterTo3D.create_billboard_character,
    CharacterTo3D.load_sprite_image, CharacterTo3D.billboard_depth_branch,
    CharacterTo3D.export_glb.
  destruct w; cbn [fs host] in *.
  destruct (dirname out) as [|a dn]; cbn [String.eqb negb] in Hd.
  all: run; host_cases; run; try discriminate.
  all: cbn [fst snd fs objects materials].
  all: split; [reflexivity|]; split; [reflexivity|].
  all: do 2 eexists; split; [reflexivity|]; split; [reflexivity|].
  all: split; reflexivity.
Qed.

Lemma character_script_default_run_witness :
  let w := set_fs (fun m => <["." := Dir]> m) wide_sprite in
  let r := CharacterTo3D.script decimal_float
             (["blender"; "--python"; "script.py"]
              ++ ["--"; "sprite.png"; "out.glb"]) w in
  r.1 = Raise (SystemExit 0)
  /\ fs r.2 = <["out.glb" := GlbFile (objects r.2) (materials r.2)]> (fs w)
  /\ exists front back,
       objects r.2 = [front; back]
       /\ o_name front = "CharacterBillboard"
       /\ o_name back = "CharacterShadow"
       /\ (y_of back == -0.1)%Q.
Proof.
  apply (character_script_default_run decimal_float
           (set_fs (fun m => <["." := Dir]> m) wide_sprite)
           ["blender"; "--python"; "script.py"] "sprite.png" "out.glb" 800 400).
  - apply (bool_decide_unpack _). vm_compute. exact I.
  - reflexivity.
  - lia.
  - reflexivity.
  - reflexivity.
Defined.
